(** * PSE_Spice: the piecewise-linear waveform compiler of [lt.py]

    A shallow embedding of [lt.py] and the properties of its ladder
    expander, edge detector, pulse file builder, unit scaler, script
    extractor and channel serializer.

    Python floats are IEEE binary64 values; they are modelled by the
    primitive floats of the standard library, so that [float()],
    [round(x, 1)], [int()], [str()] and the [.0f] format compute the same
    bits and the same digits as the interpreter.  Python exceptions are
    modelled by the [result] monad of module [Py]. *)

From Stdlib Require Import ZArith List String Ascii Bool Lia DecimalString.
From Stdlib Require Floats.PrimFloat Floats.SpecFloat Floats.FloatOps Floats.FloatAxioms.
Import ListNotations.
Local Open Scope Z_scope.

(** ** The Python runtime used by [lt.py] *)

Module Py.

(** *** Exceptions *)

Inductive exn : Set :=
  | IndexError
  | ValueError
  | TypeError
  | OverflowError
  | AttributeError
  | ZeroDivisionError.

Inductive result (A : Type) : Type :=
  | Ok (a : A)
  | Raise (e : exn).

Arguments Ok {A} a.
Arguments Raise {A} e.

Definition bind {A B : Type} (m : result A) (k : A -> result B) : result B :=
  match m with
  | Ok a => k a
  | Raise e => Raise e
  end.

Definition is_ok {A : Type} (m : result A) : bool :=
  match m with
  | Ok _ => true
  | Raise _ => false
  end.

Fixpoint mapM {A B : Type} (f : A -> result B) (l : list A) : result (list B) :=
  match l with
  | [] => Ok []
  | a :: l' =>
      bind (f a) (fun b => bind (mapM f l') (fun bs => Ok (b :: bs)))
  end.

(** [l[i]] for a non-negative index. *)
Definition getitem {A : Type} (l : list A) (i : nat) : result A :=
  match nth_error l i with
  | Some a => Ok a
  | None => Raise IndexError
  end.

(** [l[i] = v], as a new list. *)
Fixpoint setitem {A : Type} (l : list A) (i : nat) (v : A) : result (list A) :=
  match l, i with
  | [], _ => Raise IndexError
  | _ :: l', O => Ok (v :: l')
  | a :: l', S i' => bind (setitem l' i' v) (fun r => Ok (a :: r))
  end.

(** *** Strings: [split], [lower], [find], and the search for [[0-9]+] *)

Definition is_digit (c : ascii) : bool :=
  let n := nat_of_ascii c in (48 <=? n)%nat && (n <=? 57)%nat.

Definition is_upper (c : ascii) : bool :=
  let n := nat_of_ascii c in (65 <=? n)%nat && (n <=? 90)%nat.

Definition is_lower (c : ascii) : bool :=
  let n := nat_of_ascii c in (97 <=? n)%nat && (n <=? 122)%nat.

(** Whitespace as [float()] strips it.  A character is a code point below
    256.  [float()] strips the six ASCII characters that C calls space:
    tab, newline, vertical tab, form feed, carriage return and the space;
    the separators 28..31 are not among them, although [str.isspace] holds
    of them.  Of the characters above 127 it first turns the two that are
    whitespace, the next-line character 133 and the no-break space 160,
    into a space, so that they are stripped too. *)
Definition is_space (c : ascii) : bool :=
  let n := nat_of_ascii c in
  ((9 <=? n)%nat && (n <=? 13)%nat) || (n =? 32)%nat || (n =? 133)%nat || (n =? 160)%nat.

Definition lower_char (c : ascii) : ascii :=
  if is_upper c then ascii_of_nat (nat_of_ascii c + 32) else c.

Fixpoint lower (s : string) : string :=
  match s with
  | EmptyString => EmptyString
  | String c s' => String (lower_char c) (lower s')
  end.

(** [s.split(sep)] for a one-character separator: always at least one
    piece, and empty pieces are kept. *)
Fixpoint split (sep : ascii) (s : string) : list string :=
  match s with
  | EmptyString => [EmptyString]
  | String c s' =>
      if Ascii.eqb c sep then EmptyString :: split sep s'
      else match split sep s' with
           | [] => [String c EmptyString]
           | p :: ps => String c p :: ps
           end
  end.

Fixpoint find_from (sub s : string) (i : Z) : Z :=
  if String.prefix sub s then i
  else match s with
       | EmptyString => -1
       | String _ s' => find_from sub s' (i + 1)
       end.

(** [s.find(sub)]: the lowest index of an occurrence, or [-1]. *)
Definition find (s sub : string) : Z := find_from sub s 0.

Fixpoint take_digits (s : string) : string :=
  match s with
  | EmptyString => EmptyString
  | String c s' => if is_digit c then String c (take_digits s') else EmptyString
  end.

Fixpoint drop_digits (s : string) : string :=
  match s with
  | EmptyString => EmptyString
  | String c s' => if is_digit c then drop_digits s' else s
  end.

(** [re.search('[0-9]+', s)]: the leftmost, longest run of digits, or
    [None]. *)
Fixpoint search_digits (s : string) : option string :=
  match s with
  | EmptyString => None
  | String c s' => if is_digit c then Some (take_digits s) else search_digits s'
  end.

(** [m.group()] on the result of a search. *)
Definition group (m : option string) : result string :=
  match m with
  | Some g => Ok g
  | None => Raise AttributeError
  end.

Fixpoint digits_value_from (acc : Z) (s : string) : Z :=
  match s with
  | EmptyString => acc
  | String c s' => digits_value_from (10 * acc + (Z.of_nat (nat_of_ascii c) - 48)) s'
  end.

(** The number a string of decimal digits denotes. *)
Definition digits_value (s : string) : Z := digits_value_from 0 s.

(** The decimal digits of a non-negative integer. *)
Definition decimal (z : Z) : string := NilZero.string_of_uint (N.to_uint (Z.to_N z)).

End Py.

Export Py.

Declare Scope py_scope.
Delimit Scope py_scope with py.
Notation "x <- m ;; k" := (Py.bind m (fun x => k))
  (at level 61, m at next level, right associativity) : py_scope.
Notation "' p <- m ;; k" := (Py.bind m (fun x => match x with p => k end))
  (at level 61, p pattern, m at next level, right associativity) : py_scope.
Local Open Scope py_scope.

(** ** Python floats *)

Module PyFloat.

Definition fzero : PrimFloat.float := PrimFloat.zero.
Definition fone : PrimFloat.float := PrimFloat.one.

(** The binary64 value nearest to [n / d] (ties to even), with the sign
    [neg]; [0 <= n] and [0 < d].  The quotient is computed exactly to more
    than 64 bits, with one more bit that records a non-zero remainder, and
    then rounded once. *)
Definition nearest (neg : bool) (n d : Z) : PrimFloat.float :=
  if n =? 0 then (if neg then PrimFloat.neg_zero else PrimFloat.zero)
  else
    let k := 64 + Z.log2 d - Z.log2 n in
    let num := if 0 <=? k then n * 2 ^ k else n in
    let den := if 0 <=? k then d else d * 2 ^ (- k) in
    let q := num / den in
    let m := 2 * q + (if num mod den =? 0 then 0 else 1) in
    FloatOps.SF2Prim
      (SpecFloat.binary_normalize FloatOps.prec FloatOps.emax
         (if neg then - m else m) (- k - 1) neg).

(** [n * 10 ^ e] as a binary64 value. *)
Definition of_decimal (neg : bool) (n e : Z) : PrimFloat.float :=
  if 0 <=? e then nearest neg (n * 10 ^ e) 1 else nearest neg n (10 ^ (- e)).

(** [float(z)] for a Python int. *)
Definition of_int (z : Z) : result PrimFloat.float :=
  let f := nearest (z <? 0) (Z.abs z) 1 in
  if PrimFloat.is_infinity f then Raise OverflowError else Ok f.

(** The magnitude of a finite float [m * 2 ^ e] as a fraction. *)
Definition fraction (m : positive) (e : Z) : Z * Z :=
  if 0 <=? e then (Z.pos m * 2 ^ e, 1) else (Z.pos m, 2 ^ (- e)).

(** [n / d] rounded to the nearest integer, ties to even. *)
Definition round_half_even (n d : Z) : Z :=
  let q := n / d in
  let r := n mod d in
  if 2 * r <? d then q
  else if d <? 2 * r then q + 1
  else if Z.even q then q else q + 1.

(** [round(x, 1)]: the exact binary value of [x] is rounded to one decimal
    (ties to even) and the decimal is converted back to the nearest float;
    zeros, infinities and nan round to themselves. *)
Definition round1 (x : PrimFloat.float) : PrimFloat.float :=
  match FloatOps.Prim2SF x with
  | SpecFloat.S754_finite s m e =>
      let '(n, d) := fraction m e in
      nearest s (round_half_even (10 * n) d) 10
  | _ => x
  end.

(** [round(x)] as numpy computes it on a column: to the nearest integer,
    ties to even, still a float. *)
Definition rint (x : PrimFloat.float) : PrimFloat.float :=
  match FloatOps.Prim2SF x with
  | SpecFloat.S754_finite s m e =>
      let '(n, d) := fraction m e in
      nearest s (round_half_even n d) 1
  | _ => x
  end.

(** [int(x)]: truncation toward zero. *)
Definition to_int (x : PrimFloat.float) : result Z :=
  match FloatOps.Prim2SF x with
  | SpecFloat.S754_finite s m e =>
      let '(n, d) := fraction m e in
      Ok (if s then - (n / d) else n / d)
  | SpecFloat.S754_zero _ => Ok 0
  | SpecFloat.S754_infinity _ => Raise OverflowError
  | SpecFloat.S754_nan => Raise ValueError
  end.

(** [x == y] on floats. *)
Definition eq (x y : PrimFloat.float) : bool := PrimFloat.eqb x y.

(** [x / y]. *)
Definition truediv (x y : PrimFloat.float) : result PrimFloat.float :=
  if eq y fzero then Raise ZeroDivisionError else Ok (PrimFloat.div x y).

(** *** [float(s)] *)

Fixpoint lstrip (s : string) : string :=
  match s with
  | EmptyString => EmptyString
  | String c s' => if is_space c then lstrip s' else s
  end.

Fixpoint rstrip (s : string) : string :=
  match s with
  | EmptyString => EmptyString
  | String c s' =>
      match rstrip s' with
      | EmptyString => if is_space c then EmptyString else String c EmptyString
      | r => String c r
      end
  end.

Definition strip (s : string) : string := rstrip (lstrip s).

(** Underscores are accepted between two digits only, and then ignored. *)
Fixpoint remove_underscores (prev : option ascii) (s : string) : option string :=
  match s with
  | EmptyString =>
      match prev with
      | Some "_"%char => None
      | _ => Some EmptyString
      end
  | String c s' =>
      if Ascii.eqb c "_" then
        match prev with
        | Some p => if is_digit p then remove_underscores (Some c) s' else None
        | None => None
        end
      else
        let ok := match prev with
                  | Some "_"%char => is_digit c
                  | _ => true
                  end in
        if ok then option_map (String c) (remove_underscores (Some c) s') else None
  end.

(** An optional sign. *)
Definition take_sign (s : string) : bool * string :=
  match s with
  | String "-" s' => (true, s')
  | String "+" s' => (false, s')
  | _ => (false, s)
  end.

(** The exponent part: nothing, or [e] or [E], an optional sign and at
    least one digit, up to the end of the string. *)
Definition parse_exponent (s : string) : option Z :=
  match s with
  | EmptyString => Some 0
  | String c s' =>
      if Ascii.eqb (lower_char c) "e" then
        let '(neg, ds) := take_sign s' in
        match ds, drop_digits ds with
        | String _ _, EmptyString =>
            Some (if neg then - digits_value ds else digits_value ds)
        | _, _ => None
        end
      else None
  end.

(** A decimal literal: digits with an optional fraction, or a fraction
    alone, and an optional exponent. *)
Definition parse_decimal (neg : bool) (s : string) : option PrimFloat.float :=
  let ip := take_digits s in
  let r := drop_digits s in
  let '(fp, r') :=
    match r with
    | String "." r1 => (take_digits r1, drop_digits r1)
    | _ => (EmptyString, r)
    end in
  match (ip ++ fp)%string with
  | EmptyString => None
  | ds =>
      match parse_exponent r' with
      | Some e => Some (of_decimal neg (digits_value ds) (e - Z.of_nat (String.length fp)))
      | None => None
      end
  end.

Definition parse_inf_or_nan (neg : bool) (s : string) : option PrimFloat.float :=
  let l := lower s in
  if String.eqb l "inf" || String.eqb l "infinity" then
    Some (if neg then PrimFloat.neg_infinity else PrimFloat.infinity)
  else if String.eqb l "nan" then Some PrimFloat.nan
  else None.

(** [float(s)] for a string. *)
Definition of_string (s : string) : result PrimFloat.float :=
  match remove_underscores None (strip s) with
  | None => Raise ValueError
  | Some t =>
      let '(neg, body) := take_sign t in
      match parse_decimal neg body with
      | Some f => Ok f
      | None =>
          match parse_inf_or_nan neg body with
          | Some f => Ok f
          | None => Raise ValueError
          end
      end
  end.

(** *** [str(x)] and the [.0f] format *)

Fixpoint repeat_zero (n : nat) : string :=
  match n with
  | O => EmptyString
  | S n' => String "0" (repeat_zero n')
  end.

Fixpoint strip_zeros (s : string) : string :=
  match s with
  | EmptyString => EmptyString
  | String c s' =>
      match strip_zeros s' with
      | EmptyString => if Ascii.eqb c "0" then EmptyString else String c EmptyString
      | r => String c r
      end
  end.

(** The least [j] with [d <= n * 10 ^ j], searched upward from [j]. *)
Fixpoint scale_up (fuel : nat) (n d j : Z) : Z :=
  match fuel with
  | O => j
  | S fuel' => if d <=? n then j else scale_up fuel' (10 * n) d (j + 1)
  end.

(** The position of the decimal point of [n / d]: the [p] with
    [10 ^ (p - 1) <= n / d < 10 ^ p]. *)
Definition decimal_point (n d : Z) : Z :=
  if d <=? n then Z.of_nat (String.length (decimal (n / d)))
  else 1 - scale_up 400 n d 0.

(** The shortest decimal that reads back as [x = n / d], and among the
    shortest the one closest to [x]: for 1, 2, ... 17 significant digits
    the two decimals around [x] are tried. *)
Fixpoint shortest (fuel : nat) (x : PrimFloat.float) (n d p ndig : Z) : Z * Z :=
  let e10 := p - ndig in
  let num := if 0 <=? e10 then n else n * 10 ^ (- e10) in
  let den := if 0 <=? e10 then d * 10 ^ e10 else d in
  let lo := num / den in
  let r := num mod den in
  let lo_ok := PrimFloat.eqb (of_decimal false lo e10) x in
  let hi_ok := PrimFloat.eqb (of_decimal false (lo + 1) e10) x in
  match fuel with
  | O => (round_half_even num den, e10)
  | S fuel' =>
      if lo_ok && hi_ok then (if 2 * r <=? den then lo else lo + 1, e10)
      else if lo_ok then (lo, e10)
      else if hi_ok then (lo + 1, e10)
      else shortest fuel' x n d p (ndig + 1)
  end.

(** The digits and the position of the decimal point that [repr] prints for
    a positive finite [x = n / d]: the value is [0.digits * 10 ^ decpt]. *)
Definition repr_digits (x : PrimFloat.float) (n d : Z) : string * Z :=
  let '(c, e10) := shortest 16 x n d (decimal_point n d) 1 in
  let ds := decimal c in
  (strip_zeros ds, Z.of_nat (String.length ds) + e10).

Definition repr_exponent (e : Z) : string :=
  let sign := if e <? 0 then "e-"%string else "e+"%string in
  let pad := if Z.abs e <? 10 then "0"%string else EmptyString in
  (sign ++ pad ++ decimal (Z.abs e))%string.

(** Fixed notation when [-4 < decpt <= 16], with a digit on both sides of
    the point, and exponent notation otherwise. *)
Definition repr_finite (ds : string) (decpt : Z) : string :=
  let nd := Z.of_nat (String.length ds) in
  if (decpt <=? -4) || (16 <? decpt) then
    match ds with
    | String c EmptyString => String c (repr_exponent (decpt - 1))
    | String c tl => String c (String "." (tl ++ repr_exponent (decpt - 1)))
    | EmptyString => EmptyString
    end
  else if decpt <=? 0 then
    let zeros := repeat_zero (Z.to_nat (- decpt)) in
    ("0." ++ zeros ++ ds)%string
  else if nd <=? decpt then
    let zeros := repeat_zero (Z.to_nat (decpt - nd)) in
    (ds ++ zeros ++ ".0")%string
  else
    let int_part := String.substring 0 (Z.to_nat decpt) ds in
    let frac_part := String.substring (Z.to_nat decpt) (Z.to_nat (nd - decpt)) ds in
    (int_part ++ "." ++ frac_part)%string.

(** [str(x)], which is [repr(x)]. *)
Definition str (x : PrimFloat.float) : string :=
  match FloatOps.Prim2SF x with
  | SpecFloat.S754_nan => "nan"
  | SpecFloat.S754_infinity s => if s then "-inf" else "inf"
  | SpecFloat.S754_zero s => if s then "-0.0" else "0.0"
  | SpecFloat.S754_finite s m e =>
      let '(n, d) := fraction m e in
      let '(ds, decpt) := repr_digits (PrimFloat.abs x) n d in
      if s then String "-" (repr_finite ds decpt) else repr_finite ds decpt
  end.

(** [f'{x:.0f}']: the exact value rounded to an integer, ties to even,
    printed without a decimal point; the sign of a negative zero is kept. *)
Definition format_0f (x : PrimFloat.float) : string :=
  match FloatOps.Prim2SF x with
  | SpecFloat.S754_nan => "nan"
  | SpecFloat.S754_infinity s => if s then "-inf" else "inf"
  | SpecFloat.S754_zero s => if s then "-0" else "0"
  | SpecFloat.S754_finite s m e =>
      let '(n, d) := fraction m e in
      let t := decimal (round_half_even n d) in
      if s then String "-" t else t
  end.

End PyFloat.

(** ** The program [lt.py] *)

Module Lt.

(** A float literal of the source: [lit n e] is the literal [n e e], read
    as Python reads it. *)
Definition lit (n e : Z) : PrimFloat.float := PyFloat.of_decimal false n e.

(** *** [build_frame_from_script] *)

(** An element of [e_list]: a piece of the row as [split] returns it, or
    an int that the loop has written over it. *)
Inductive cell : Set :=
  | CInt (z : Z)
  | CStr (s : string).

(** [float(j)] *)
Definition float_of_cell (j : cell) : result PrimFloat.float :=
  match j with
  | CInt z => PyFloat.of_int z
  | CStr s => PyFloat.of_string s
  end.

(** [round(float(j), 1)] *)
Definition quantize (j : cell) : result PrimFloat.float :=
  x <- float_of_cell j ;; Ok (PyFloat.round1 x).

Definition rise_time : Z := 1.

(** The body of the first loop up to the two appends: the edge row
    [e_list] and the settle row [o_list] of one script row. *)
Definition expand_row (row : string) : result (list PrimFloat.float * list PrimFloat.float) :=
  e_list <- setitem (map CStr (split "," row)) 0 (CInt 0) ;;
  let o_list := e_list in
  e_list <- setitem e_list 1 (CInt rise_time) ;;
  e_list <- mapM quantize e_list ;;
  o_list <- mapM quantize o_list ;;
  Ok (e_list, o_list).

(** The first loop, from the state [(frame, times)]. *)
Fixpoint expand (script : list string)
    (frame : list (list PrimFloat.float)) (times : list PrimFloat.float)
    : result (list (list PrimFloat.float) * list PrimFloat.float) :=
  match script with
  | [] => Ok (frame, times)
  | row :: script' =>
      ' (e_list, o_list) <- expand_row row ;;
      o1 <- getitem o_list 1 ;;
      expand script' (frame ++ [e_list; o_list]) (times ++ [o1])
  end.

(** [frame.pop(0)] *)
Definition pop0 {A : Type} (frame : list A) : result (list A) :=
  match frame with
  | [] => Raise IndexError
  | _ :: frame' => Ok frame'
  end.

(** The second loop, from the value of [accumulated_time]. *)
Fixpoint accumulate (frame : list (list PrimFloat.float))
    (accumulated_time : PrimFloat.float) : result (list (list PrimFloat.float)) :=
  match frame with
  | [] => Ok []
  | row :: frame' =>
      dt <- getitem row 1 ;;
      let accumulated_time := PrimFloat.add accumulated_time dt in
      row <- setitem row 0 accumulated_time ;;
      rest <- accumulate frame' accumulated_time ;;
      Ok (row :: rest)
  end.

(** The ladder expansion: the function up to the end of the second loop,
    with the frame and the list [times] it has built. *)
Definition ladder (script : list string)
    : result (list (list PrimFloat.float) * list PrimFloat.float) :=
  ' (frame, times) <- expand script [] [] ;;
  frame <- pop0 frame ;;
  frame <- accumulate frame PyFloat.fzero ;;
  Ok (frame, times).

Record timing : Set := {
  pw : PrimFloat.float;
  dt0 : PrimFloat.float;
  rpw : PrimFloat.float;
  dt1 : PrimFloat.float;
  gap : PrimFloat.float
}.

Definition build_frame_from_script (script : list string)
    : result (list (list PrimFloat.float) * timing) :=
  ' (frame, times) <- ladder script ;;
  pw <- getitem times 1 ;;
  dt0 <- getitem times 2 ;;
  rpw <- getitem times 3 ;;
  dt1 <- getitem times 4 ;;
  gap <- getitem times 5 ;;
  Ok (frame, {| pw := pw; dt0 := dt0; rpw := rpw; dt1 := dt1; gap := gap |}).

(** *** [spice_make_pwl] and [make_pwl_files_from_frame] *)

Definition columns : list string :=
  ["Time"; "dt"; "dac_en"; "amp_sel"; "rebal1"; "rebal2"]%string.

Definition width (data : list (list PrimFloat.float)) : nat :=
  fold_right (fun row w => Nat.max (List.length row) w) O data.

Definition pad (n : nat) (row : list PrimFloat.float) : list PrimFloat.float :=
  (row ++ repeat PrimFloat.nan (n - List.length row))%list.

(** [pd.DataFrame(data, columns=...)] for [n] column names: the rows of
    the table.  Short rows are filled with nan; it is an error when the
    longest row has not [n] fields. *)
Definition DataFrame (data : list (list PrimFloat.float)) (n : nat)
    : result (list (list PrimFloat.float)) :=
  match data with
  | [] => Ok []
  | _ => if Nat.eqb (width data) n then Ok (map (pad n) data) else Raise ValueError
  end.

(** One line of the file: [str(Time) + 'u'], a space, [str(value)]. *)
Definition pwl_line (col : nat) (row : list PrimFloat.float) : string :=
  (PyFloat.str (nth 0 row PrimFloat.nan) ++ "u" ++ " " ++
   PyFloat.str (nth col row PrimFloat.nan))%string.

(** The lines written to [column + '.txt'], for the column at index [col]. *)
Definition spice_make_pwl (df : list (list PrimFloat.float)) (col : nat) : list string :=
  map (pwl_line col) df.

(** The files written, as pairs of a file name and its lines. *)
Definition make_pwl_files_from_frame (frame : list (list PrimFloat.float))
    : result (list (string * list string)) :=
  dfs <- DataFrame frame (List.length columns) ;;
  Ok (map (fun col => ((nth col columns EmptyString ++ ".txt")%string, spice_make_pwl dfs col))
          [2; 3; 4; 5]%nat).

(** *** [PSE.__init__], from the script that it reads off the net list *)

Record PSE : Type := {
  script : list string;
  frame : list (list PrimFloat.float);
  named : timing;
  files : list (string * list string);
  period : PrimFloat.float;
  frequency : Z
}.

(** [1 if period == 0 else int(1e6 / period)] *)
Definition frequency_of (period : PrimFloat.float) : result Z :=
  if PyFloat.eq period PyFloat.fzero then Ok 1
  else q <- PyFloat.truediv (lit 1 6) period ;; PyFloat.to_int q.

Definition PSE_init (script : list string) : result PSE :=
  ' (frame, t) <- build_frame_from_script script ;;
  files <- make_pwl_files_from_frame frame ;;
  let period :=
    PrimFloat.add (PrimFloat.add (PrimFloat.add (pw t) (dt0 t)) (rpw t)) (dt1 t) in
  frequency <- frequency_of period ;;
  Ok {| script := script; frame := frame; named := t; files := files;
        period := period; frequency := frequency |}.

(** *** [csv_to_pwl] *)

(** The table [df] restricted to its ['Time'] column and the column
    [column]: one pair per sample. *)
Definition trace : Set := list (PrimFloat.float * PrimFloat.float).

Fixpoint diff_from (prev : PrimFloat.float) (v : list PrimFloat.float) : list PrimFloat.float :=
  match v with
  | [] => []
  | x :: v' => PrimFloat.sub x prev :: diff_from x v'
  end.

(** [df[column].diff()]: nan for the first sample, then the difference
    with the sample before. *)
Definition diff (v : list PrimFloat.float) : list PrimFloat.float :=
  match v with
  | [] => []
  | x :: v' => PrimFloat.nan :: diff_from x v'
  end.

(** [x != 0], true for nan. *)
Definition ne0 (x : PrimFloat.float) : bool := negb (PyFloat.eq x PyFloat.fzero).

(** [df[mask]] *)
Fixpoint select {A : Type} (mask : list bool) (df : list A) : list A :=
  match mask, df with
  | b :: mask', r :: df' => if b then r :: select mask' df' else select mask' df'
  | _, _ => []
  end.

(** The table [dn]: the samples where [diff() != 0], with the time in
    microseconds rounded to an integer and the value mapped to [0] or
    [max_val]. *)
Definition changes (df : trace) (max_val : Z) : list (PrimFloat.float * Z) :=
  let mask := map ne0 (diff (map snd df)) in
  map (fun r => (PyFloat.rint (PrimFloat.mul (fst r) (lit 1 6)),
                 if ne0 (snd r) then max_val else 0))
      (select mask df).

(** [f'{v:.0f}'] for an int, which is formatted as a float. *)
Definition format_int_0f (v : Z) : result string :=
  x <- PyFloat.of_int v ;; Ok (PyFloat.format_0f x).

(** The variables of the loop, and the lines written to the file [f]. *)
Record writer : Set := {
  previous_value : option Z;
  cmd_str : option string;
  f : list string
}.

(** The body of the loop for one row of [dn]. *)
Definition emit (st : writer) (row : PrimFloat.float * Z) : result writer :=
  if PyFloat.eq (fst row) PyFloat.fzero then
    v <- format_int_0f (snd row) ;;
    let part_1 := (PyFloat.format_0f (fst row) ++ "u " ++ v)%string in
    Ok {| previous_value := Some (snd row);
          cmd_str := Some ("PWL(" ++ part_1 ++ " ")%string;
          f := f st ++ [part_1] |}
  else
    match previous_value st with
    | None => Raise TypeError
    | Some previous =>
        p <- format_int_0f previous ;;
        let part_1 := (PyFloat.format_0f (fst row) ++ "u " ++ p)%string in
        v <- format_int_0f (snd row) ;;
        let part_2 :=
          (PyFloat.format_0f (PrimFloat.add (fst row) PyFloat.fone) ++ "u  " ++ v)%string in
        match cmd_str st with
        | None => Raise TypeError
        | Some c =>
            Ok {| previous_value := Some (snd row);
                  cmd_str := Some (c ++ part_1 ++ " " ++ part_2)%string;
                  f := f st ++ [part_1; part_2] |}
        end
    end.

Fixpoint emit_all (st : writer) (dn : list (PrimFloat.float * Z)) : result writer :=
  match dn with
  | [] => Ok st
  | row :: dn' => st' <- emit st row ;; emit_all st' dn'
  end.

(** The lines of the file [column + '.txt'] and the string returned. *)
Definition csv_to_pwl (df : trace) (max_val : Z) : result (list string * string) :=
  st <- emit_all {| previous_value := None; cmd_str := None; f := [] |}
                 (changes df max_val) ;;
  match cmd_str st with
  | None => Raise TypeError
  | Some c => Ok (f st, (c ++ ")")%string)
  end.

(** A line [<time>u <value>] of a file read back as a breakpoint; the
    time and the value are non-negative integers here. *)
Definition breakpoint (line : string) : option (Z * Z) :=
  let t := take_digits line in
  match t, drop_digits line with
  | String _ _, String "u" rest =>
      let v := PyFloat.lstrip rest in
      match v, drop_digits v with
      | String _ _, EmptyString => Some (digits_value t, digits_value v)
      | _, _ => None
      end
  | _, _ => None
  end.

(** *** [parse_param_string] *)

Definition parse_param_string (string : string) : result PrimFloat.float :=
  ss <- getitem (split "=" string) 1 ;;
  g <- group (search_digits ss) ;;
  val <- PyFloat.of_string g ;;
  if 0 <? find (lower ss) "meg" then Ok (PrimFloat.mul val (lit 1 6))
  else if 0 <? find (lower ss) "k" then Ok (PrimFloat.mul val (lit 1 3))
  else if 0 <? find (lower ss) "m" then Ok (PrimFloat.mul val (lit 1 (-3)))
  else if 0 <? find (lower ss) "u" then Ok (PrimFloat.mul val (lit 1 (-6)))
  else if 0 <? find (lower ss) "n" then Ok (PrimFloat.mul val (lit 1 (-9)))
  else if 0 <? find (lower ss) "p" then Ok (PrimFloat.mul val (lit 1 (-12)))
  else Ok val.

(** *** [convert_script_to_list] and [get_script_from_net_list] *)

Definition tab : ascii := ascii_of_nat 9.
Definition newline : ascii := ascii_of_nat 10.
Definition backslash : ascii := ascii_of_nat 92.

(** [re.sub(' +', ' ', s)]: every run of spaces becomes one space. *)
Fixpoint squeeze_spaces (s : string) : string :=
  match s with
  | EmptyString => EmptyString
  | String c s' =>
      if Ascii.eqb c " " then
        match s' with
        | String c' _ =>
            if Ascii.eqb c' " " then squeeze_spaces s' else String c (squeeze_spaces s')
        | EmptyString => String c EmptyString
        end
      else String c (squeeze_spaces s')
  end.

(** [re.sub(a, b, s)] for two characters. *)
Fixpoint replace_char (a b : ascii) (s : string) : string :=
  match s with
  | EmptyString => EmptyString
  | String c s' => String (if Ascii.eqb c a then b else c) (replace_char a b s')
  end.

(** [s.split(sep='\\n')]: the pieces between the occurrences of a
    backslash followed by the letter n, taken from the left. *)
Fixpoint split_backslash_n (s : string) : list string :=
  match s with
  | EmptyString => [EmptyString]
  | String c s' =>
      let grow :=
        match split_backslash_n s' with
        | p :: ps => String c p :: ps
        | [] => [String c EmptyString]
        end in
      if Ascii.eqb c backslash then
        match s' with
        | String c' s'' =>
            if Ascii.eqb c' "n" then EmptyString :: split_backslash_n s'' else grow
        | EmptyString => grow
        end
      else grow
  end.

Definition convert_script_to_list (script : string) : list string :=
  let script := squeeze_spaces script in
  let script := replace_char tab " " script in
  let script := replace_char newline " " script in
  split_backslash_n script.

(** How a call ends: with a value, with an exception of [exn], or with the
    [UnboundLocalError] of a variable that was never assigned. *)
Inductive outcome (A : Type) : Type :=
  | Returned (a : A)
  | Raised (e : exn)
  | UnboundLocalError.

Arguments Returned {A} a.
Arguments Raised {A} e.
Arguments UnboundLocalError {A}.

(** The loop over the lines of the net list, from the value of [my_list],
    [None] while it is not assigned. *)
Fixpoint scan_net_list (lines : list string) (my_list : option (list string))
    : result (option (list string)) :=
  match lines with
  | [] => Ok my_list
  | line :: lines' =>
      if negb (find line "Python Script" =? -1) then
        let string := squeeze_spaces line in
        let string := replace_char tab " " string in
        let string := replace_char newline " " string in
        my_list <- pop0 (split_backslash_n string) ;;
        my_list <- pop0 my_list ;;
        scan_net_list lines' (Some my_list)
      else scan_net_list lines' my_list
  end.

(** [get_script_from_net_list], from the lines of the file. *)
Definition get_script_from_net_list (net_list : list string) : outcome (list string) :=
  match scan_net_list net_list None with
  | Ok (Some my_list) => Returned my_list
  | Ok None => UnboundLocalError
  | Raise e => Raised e
  end.

(** *** [make_ac_pwl_file_for_spice], up to the table [dfs] *)

(** C's [fmod]: the remainder of the division of the magnitudes, computed
    exactly, with the sign of [x]. *)
Definition fmod (x y : PrimFloat.float) : PrimFloat.float :=
  match FloatOps.Prim2SF x, FloatOps.Prim2SF y with
  | SpecFloat.S754_nan, _ => PrimFloat.nan
  | _, SpecFloat.S754_nan => PrimFloat.nan
  | SpecFloat.S754_infinity _, _ => PrimFloat.nan
  | _, SpecFloat.S754_zero _ => PrimFloat.nan
  | SpecFloat.S754_zero _, _ => x
  | SpecFloat.S754_finite _ _ _, SpecFloat.S754_infinity _ => x
  | SpecFloat.S754_finite sx mx ex, SpecFloat.S754_finite _ my ey =>
      let '(nx, dx) := PyFloat.fraction mx ex in
      let '(ny, dy) := PyFloat.fraction my ey in
      PyFloat.nearest sx ((nx * dy) mod (ny * dx)) (dx * dy)
  end.

(** [x % y] on floats: the remainder takes the sign of [y]. *)
Definition float_mod (x y : PrimFloat.float) : result PrimFloat.float :=
  if PyFloat.eq y PyFloat.fzero then Raise ZeroDivisionError
  else
    let m := fmod x y in
    if ne0 m then
      if xorb (PrimFloat.ltb y PyFloat.fzero) (PrimFloat.ltb m PyFloat.fzero)
      then Ok (PrimFloat.add m y)
      else Ok m
    else Ok (if PrimFloat.ltb y PyFloat.fzero then PrimFloat.neg_zero else PrimFloat.zero).

(** [pd.DataFrame(data, columns=...)] for [n] column names and cells of any
    one type: as [DataFrame], with [None] for the cells that are missing. *)
Definition DataFrame_of {A : Type} (data : list (list A)) (n : nat)
    : result (list (list (option A))) :=
  match data with
  | [] => Ok []
  | _ =>
      if Nat.eqb (fold_right (fun row w => Nat.max (List.length row) w) O data) n
      then Ok (map (fun row => (map Some row ++ repeat None (n - List.length row))%list) data)
      else Raise ValueError
  end.

Definition ac_columns : list string :=
  ["Time"; "dt"; "dac_en"; "amp_sel"; "rebal1"; "rebal2";
   "ie_en"; "cap_byp"; "pw_amp"; "rpw_amp"]%string.

(** The function with int arguments, from its first line to the
    assignment of [dfs]: the value of [dfs]. *)
Definition make_ac_pwl_file_for_spice_dfs
    (amplitude_ua pulsewidth_us ipi rpr requested_frequency cycles : Z)
    : result (list (list (option Z))) :=
  a <- PyFloat.of_int amplitude_ua ;;
  let pw_amp := PrimFloat.mul (lit 1 (-6)) a in
  r <- PyFloat.of_int rpr ;;
  rpw_amp <- PyFloat.truediv (PrimFloat.mul (lit 1 (-6)) a) r ;;
  let pw := pulsewidth_us - pulsewidth_us mod 15 in
  let rpw := pw * rpr in
  let dt0 := ipi - ipi mod 15 in
  f <- PyFloat.of_int requested_frequency ;;
  q <- PyFloat.truediv (lit 1 6) f ;;
  x <- PyFloat.of_int pw ;;
  y <- PyFloat.of_int dt0 ;;
  z <- PyFloat.of_int rpw ;;
  let dt1 := PrimFloat.sub (PrimFloat.sub (PrimFloat.sub q x) y) z in
  m <- float_mod dt1 (lit 15 0) ;;
  dt1 <- PyFloat.to_int (PrimFloat.sub dt1 m) ;;
  let period := pw + dt0 + rpw + dt1 in
  frequency <-
    (if period =? 0 then Ok 1
     else p <- PyFloat.of_int period ;;
          q <- PyFloat.truediv (lit 1 6) p ;;
          PyFloat.to_int q) ;;
  let data :=
    [[0; 0; 0; 0; 0; 0];
     [0; pw; 1; 1; 0; 0];
     [0; dt0; 0; 0; 0; 0];
     [0; rpw; 1; 0; 0; 0];
     [0; dt1; 0; 0; 1; 1]] in
  DataFrame_of data (List.length ac_columns).

End Lt.

(** ** Descriptions used in the statements *)

(** *** The ladder *)

(** The rows that the first loop appends, in order: the edge row and then
    the settle row of each script row. *)
Definition interleave (rows : list (list PrimFloat.float * list PrimFloat.float))
    : list (list PrimFloat.float) :=
  flat_map (fun eo => [fst eo; snd eo]) rows.

(** The duration field of a row. *)
Definition duration (row : list PrimFloat.float) : PrimFloat.float :=
  nth 1 row PrimFloat.nan.

(** The running sums of a list of durations, from [acc]. *)
Fixpoint running (acc : PrimFloat.float) (ds : list PrimFloat.float) : list PrimFloat.float :=
  match ds with
  | [] => []
  | d :: ds' => let acc' := PrimFloat.add acc d in acc' :: running acc' ds'
  end.

(** A frame whose rows have their first field replaced by the running sum
    of the durations. *)
Fixpoint stamp (acc : PrimFloat.float) (frame : list (list PrimFloat.float))
    : list (list PrimFloat.float) :=
  match frame with
  | [] => []
  | row :: frame' =>
      let acc' := PrimFloat.add acc (duration row) in
      (acc' :: tl row) :: stamp acc' frame'
  end.

Definition wide (row : list PrimFloat.float) : Prop := (2 <= List.length row)%nat.

(** A script row with a label, a duration and any number of levels, the
    duration and the levels being float literals. *)
Definition well_formed (row : string) : bool :=
  match split "," row with
  | _ :: d :: levels => forallb (fun s => is_ok (PyFloat.of_string s)) (d :: levels)
  | _ => false
  end.

(** The script of the docstring of [build_frame_from_script]. *)
Definition script_example : list string :=
  ["start,0,0,0,0,0"; "pw,240,1,1,0,0"; "dt0,60,0,0,0,0";
   "rpw,480,1,0,0,0"; "dt1,500,0,0,1,1"; "gap,10,0,0,0,0"]%string.

(** The bookkeeping phase and one real phase. *)
Definition script_two_phases : list string :=
  ["start,0,0,0,0,0"; "pw,240,1,1,0,0"]%string.

(** The floats that a list of integers denotes. *)
Definition floats (zs : list Z) : list PrimFloat.float :=
  map (fun z => Lt.lit z 0) zs.

(** [e] is the edge row of the script row [row]: the label is replaced by
    [0], the duration by the rise time, and every field is quantized. *)
Definition edge_of (row : string) (e : list PrimFloat.float) : Prop :=
  exists label d levels,
    split "," row = label :: d :: levels /\
    mapM Lt.quantize (Lt.CInt 0 :: Lt.CInt Lt.rise_time :: map Lt.CStr levels) = Ok e.

(** [o] is the settle row of the script row [row]: the label is replaced
    by [0] and every field, the duration first, is quantized. *)
Definition settle_of (row : string) (o : list PrimFloat.float) : Prop :=
  exists label d levels,
    split "," row = label :: d :: levels /\
    mapM Lt.quantize (Lt.CInt 0 :: Lt.CStr d :: map Lt.CStr levels) = Ok o.

(** *** Period and frequency *)

(** [round(x)] of the specification: the nearest integer, ties to even. *)
Definition round_to_int (x : PrimFloat.float) : result Z :=
  match FloatOps.Prim2SF x with
  | SpecFloat.S754_finite s m e =>
      let '(n, d) := PyFloat.fraction m e in
      let r := PyFloat.round_half_even n d in
      Ok (if s then - r else r)
  | SpecFloat.S754_zero _ => Ok 0
  | SpecFloat.S754_infinity _ => Raise OverflowError
  | SpecFloat.S754_nan => Raise ValueError
  end.

(** A script of period 600. *)
Definition script_600 : list string :=
  ["start,0,0,0,0,0"; "pw,240,1,1,0,0"; "dt0,60,0,0,0,0";
   "rpw,240,1,0,0,0"; "dt1,60,0,0,1,1"; "gap,10,0,0,0,0"]%string.

(** A script with a negative duration, of period -60. *)
Definition script_negative : list string :=
  ["start,0,0,0,0,0"; "pw,-240,1,1,0,0"; "dt0,60,0,0,0,0";
   "rpw,60,1,0,0,0"; "dt1,60,0,0,1,1"; "gap,10,0,0,0,0"]%string.

(** *** Traces *)

(** The trace with the times [ts], in seconds, and the values [vs]. *)
Definition samples (ts vs : list Z) : Lt.trace :=
  combine (floats ts) (floats vs).

(** *** Serialized times *)

(** A script with a duration of half a microsecond and a duration of
    zero. *)
Definition script_half : list string :=
  ["start,0,0,0,0,0"; "pw,0.5,1,1,0,0"; "dt0,0,0,0,0,0";
   "rpw,480,1,0,0,0"; "dt1,500,0,0,1,1"; "gap,10,0,0,0,0"]%string.

(** Every time is less than the next one. *)
Fixpoint ascending (ts : list PrimFloat.float) : bool :=
  match ts with
  | a :: ts' =>
      match ts' with
      | b :: _ => PrimFloat.ltb a b && ascending ts'
      | [] => true
      end
  | [] => true
  end.

(** A float that is an integer. *)
Definition integral (t : PrimFloat.float) : bool := PyFloat.eq (PyFloat.rint t) t.

(** The time stamps of a frame. *)
Definition stamps (frame : list (list PrimFloat.float)) : list PrimFloat.float :=
  map (hd PrimFloat.nan) frame.

(** *** Unit suffixes *)

Fixpoint all (p : ascii -> bool) (s : string) : bool :=
  match s with
  | EmptyString => true
  | String c s' => p c && all p s'
  end.

Definition is_letter (c : ascii) : bool := is_upper c || is_lower c.

Definition not_equals_sign (c : ascii) : bool := negb (Ascii.eqb c "=").

(** [sub] occurs in [s]. *)
Fixpoint contains (sub s : string) : bool :=
  String.prefix sub s ||
  match s with
  | EmptyString => false
  | String _ s' => contains sub s'
  end.

(** [c] is the small letter [l] or its capital. *)
Definition letter_is (l c : ascii) : bool :=
  Ascii.eqb c l || Ascii.eqb c (ascii_of_nat (nat_of_ascii l - 32)).

(** [s] begins with the suffix [sub], which is written in small letters,
    each letter in either case. *)
Fixpoint begins_with (sub s : string) : bool :=
  match sub, s with
  | EmptyString, _ => true
  | String l sub', String c s' => letter_is l c && begins_with sub' s'
  | String _ _, EmptyString => false
  end.

(** The suffix [sub] occurs in [s], each letter in either case. *)
Fixpoint occurs (sub s : string) : bool :=
  begins_with sub s ||
  match s with
  | EmptyString => false
  | String _ s' => occurs sub s'
  end.

(** The multiplier of the first suffix, in the order meg, k, m, u, n, p,
    that occurs in the unit letters, compared without regard to case. *)
Definition multiplier (letters : string) : option PrimFloat.float :=
  if occurs "meg" letters then Some (Lt.lit 1 6)
  else if occurs "k" letters then Some (Lt.lit 1 3)
  else if occurs "m" letters then Some (Lt.lit 1 (-3))
  else if occurs "u" letters then Some (Lt.lit 1 (-6))
  else if occurs "n" letters then Some (Lt.lit 1 (-9))
  else if occurs "p" letters then Some (Lt.lit 1 (-12))
  else None.

(** The number scaled by the multiplier of its unit letters, or left as it
    is when no suffix occurs in them. *)
Definition scaled (val : PrimFloat.float) (letters : string) : PrimFloat.float :=
  match multiplier letters with
  | Some m => PrimFloat.mul val m
  | None => val
  end.

(** *** The object built from the example script *)

(** The object that [PSE.__init__] builds from [script_example]. *)
Definition pse_example : Lt.PSE :=
  Eval vm_compute in
  match Lt.PSE_init script_example with
  | Ok p => p
  | Raise _ =>
      {| Lt.script := []; Lt.frame := []; Lt.files := [];
         Lt.named := {| Lt.pw := PyFloat.fzero; Lt.dt0 := PyFloat.fzero;
                        Lt.rpw := PyFloat.fzero; Lt.dt1 := PyFloat.fzero;
                        Lt.gap := PyFloat.fzero |};
         Lt.period := PyFloat.fzero; Lt.frequency := 0 |}
  end.

(** *** Descriptions used for the further properties of the ladder *)

(** The duration that a script row declares: its second field, quantized. *)
Definition declared_duration (row : string) : result PrimFloat.float :=
  d <- getitem (split "," row) 1 ;; Lt.quantize (Lt.CStr d).

(** Two script rows with the same fields after the label. *)
Definition same_fields (row1 row2 : string) : Prop :=
  tl (split "," row1) = tl (split "," row2).

(** *** Descriptions used for the further properties of the edge detector *)

(** An int that the [.0f] format can print, and what it prints. *)
Definition printable (v : Z) : Prop := exists s, Lt.format_int_0f v = Ok s.

Definition fmt (v : Z) : string :=
  match Lt.format_int_0f v with
  | Ok s => s
  | Raise _ => EmptyString
  end.

(** The line that holds the value [previous] up to the time [t]. *)
Definition hold_line (t : PrimFloat.float) (previous : Z) : string :=
  (PyFloat.format_0f t ++ "u " ++ fmt previous)%string.

(** The line that sets the value [v] one microsecond after [t]. *)
Definition step_line (t : PrimFloat.float) (v : Z) : string :=
  (PyFloat.format_0f (PrimFloat.add t PyFloat.fone) ++ "u  " ++ fmt v)%string.

(** The pair of lines of every change of [dn], from the value [previous]. *)
Fixpoint edges (previous : Z) (dn : list (PrimFloat.float * Z)) : list (string * string) :=
  match dn with
  | [] => []
  | r :: dn' => (hold_line (fst r) previous, step_line (fst r) (snd r)) :: edges (snd r) dn'
  end.

(** The pairs as the returned string has them: a space inside a pair and
    nothing between two pairs. *)
Fixpoint glue (ps : list (string * string)) : string :=
  match ps with
  | [] => EmptyString
  | p :: ps' => ((fst p ++ " " ++ snd p) ++ glue ps')%string
  end.

(** *** Descriptions used for the further properties of the unit scaler *)

Definition not_digit (c : ascii) : bool := negb (is_digit c).

(** A string that does not begin with a digit. *)
Definition no_leading_digit (s : string) : bool :=
  match s with
  | EmptyString => true
  | String c _ => not_digit c
  end.

(** A character that begins none of the suffixes, in either case. *)
Definition not_unit_letter (c : ascii) : bool :=
  negb (existsb (Ascii.eqb (lower_char c)) ["m"; "k"; "u"; "n"; "p"]%char).

(** *** Descriptions used for the script extractor *)

(** The rows of a script written on one line, with a backslash and the
    letter n between two rows. *)
Fixpoint join_rows (rows : list string) : string :=
  match rows with
  | [] => EmptyString
  | r :: rows' =>
      match rows' with
      | [] => r
      | _ :: _ => (r ++ String Lt.backslash (String "n" (join_rows rows')))%string
      end
  end.

(** Neither a backslash, nor a tab, nor a newline. *)
Definition plain_char (c : ascii) : bool :=
  negb (Ascii.eqb c Lt.backslash) && negb (Ascii.eqb c Lt.tab) && negb (Ascii.eqb c Lt.newline).

(** No two spaces in a row. *)
Fixpoint single_spaced (s : string) : bool :=
  match s with
  | EmptyString => true
  | String c s' =>
      match s' with
      | String c' _ => negb (Ascii.eqb c " " && Ascii.eqb c' " ")
      | EmptyString => true
      end && single_spaced s'
  end.

Definition plain_row (row : string) : bool := all plain_char row && single_spaced row.

(** A line of the net list with the marker. *)
Definition marked (line : string) : bool := negb (find line "Python Script" =? -1).

(** A script row without a comma: it has a label only. *)
Definition no_comma (row : string) : bool := all (fun c => negb (Ascii.eqb c ",")) row.

(** A script row with a duration, in which the duration or a level is not
    a float literal. *)
Definition bad_number (row : string) : bool :=
  match split "," row with
  | _ :: d :: levels => negb (forallb (fun s => is_ok (PyFloat.of_string s)) (d :: levels))
  | _ => false
  end.

(** [b] is [a] with blanks before and after it. *)
Definition padded (a b : string) : Prop :=
  exists ws1 ws2,
    all is_space ws1 = true /\ all is_space ws2 = true /\ b = (ws1 ++ a ++ ws2)%string.

(** Two script rows with the same fields after the label, up to blanks
    around the fields. *)
Definition same_numbers (row1 row2 : string) : Prop :=
  Forall2 padded (tl (split "," row1)) (tl (split "," row2)).

(** *** One decimal place *)

(** [x] is [y] rounded to one decimal place: for a finite [y] of magnitude
    [n / d], there is a number of tenths [k] at most half a tenth away from
    [n / d], the even one when two are as close, and [x] is the decimal
    [k / 10] read as a float, with the sign of [y]; zeros, infinities and
    nan are kept as they are. *)
Definition one_decimal (y x : PrimFloat.float) : Prop :=
  match FloatOps.Prim2SF y with
  | SpecFloat.S754_finite s m e =>
      exists k,
        0 <= k /\
        2 * Z.abs (10 * fst (PyFloat.fraction m e) - k * snd (PyFloat.fraction m e))
          <= snd (PyFloat.fraction m e) /\
        (2 * Z.abs (10 * fst (PyFloat.fraction m e) - k * snd (PyFloat.fraction m e))
           = snd (PyFloat.fraction m e) -> Z.even k = true) /\
        x = PyFloat.of_decimal s k (-1)
  | _ => x = y
  end.

(** [x] is the field [s] of a script row, read as a float and rounded to
    one decimal place. *)
Definition tenths_of (s : string) (x : PrimFloat.float) : Prop :=
  exists y, PyFloat.of_string s = Ok y /\ one_decimal y x.

(** [e] is the edge row of the script row [row]: 0.0 for the label, the
    rise time 1.0 for the duration, and the levels to one decimal place. *)
Definition edge_row (row : string) (e : list PrimFloat.float) : Prop :=
  exists label d levels ls,
    split "," row = label :: d :: levels /\
    e = PyFloat.fzero :: PyFloat.fone :: ls /\
    Forall2 tenths_of levels ls.

(** [o] is the settle row of the script row [row]: 0.0 for the label, and
    the duration and the levels to one decimal place. *)
Definition settle_row (row : string) (o : list PrimFloat.float) : Prop :=
  exists label d levels dq ls,
    split "," row = label :: d :: levels /\
    o = PyFloat.fzero :: dq :: ls /\
    tenths_of d dq /\ Forall2 tenths_of levels ls.

(** A script with fields of more than one decimal place. *)
Definition script_decimals : list string :=
  ["start,0,0,0,0,0"; "pw,240.26,1,1,0,0"; "dt0,60.04,0.35,0,0,0";
   "rpw,479.95,1,0,0,0"; "dt1,500,0,0,0.96,1"; "gap,10,0,0,0,0"]%string.

(** The floats that a list of numbers of tenths denotes. *)
Definition tenths (zs : list Z) : list PrimFloat.float :=
  map (fun z => Lt.lit z (-1)) zs.

(** The frame of [script_decimals], in tenths. *)
Definition frame_decimals : list (list PrimFloat.float) :=
  map tenths
    [[0; 0; 0; 0; 0; 0];
     [10; 10; 10; 10; 0; 0]; [2413; 2403; 10; 10; 0; 0];
     [2423; 10; 3; 0; 0; 0]; [3023; 600; 3; 0; 0; 0];
     [3033; 10; 10; 0; 0; 0]; [7832; 4799; 10; 0; 0; 0];
     [7842; 10; 0; 0; 10; 10]; [12842; 5000; 0; 0; 10; 10];
     [12852; 10; 0; 0; 0; 0]; [12952; 100; 0; 0; 0; 0]].

(** The frame of [script_example]. *)
Definition frame_example : list (list PrimFloat.float) :=
  map floats
    [[0; 0; 0; 0; 0; 0];
     [1; 1; 1; 1; 0; 0]; [241; 240; 1; 1; 0; 0];
     [242; 1; 0; 0; 0; 0]; [302; 60; 0; 0; 0; 0];
     [303; 1; 1; 0; 0; 0]; [783; 480; 1; 0; 0; 0];
     [784; 1; 0; 0; 1; 1]; [1284; 500; 0; 0; 1; 1];
     [1285; 1; 0; 0; 0; 0]; [1295; 10; 0; 0; 0; 0]].

(** The named timing quantities of [script_example]. *)
Definition timing_example : Lt.timing :=
  {| Lt.pw := Lt.lit 240 0; Lt.dt0 := Lt.lit 60 0; Lt.rpw := Lt.lit 480 0;
     Lt.dt1 := Lt.lit 500 0; Lt.gap := Lt.lit 10 0 |}.

(** [f] is the finite quotient [q] cut toward zero: the magnitude of [f]
    is the largest integer that is not above the magnitude [n / d] of [q],
    and [f] is not on the other side of zero. *)
Definition cut_toward_zero (q : PrimFloat.float) (f : Z) : Prop :=
  match FloatOps.Prim2SF q with
  | SpecFloat.S754_finite s m e =>
      Z.abs f * snd (PyFloat.fraction m e) <= fst (PyFloat.fraction m e) /\
      fst (PyFloat.fraction m e) < (Z.abs f + 1) * snd (PyFloat.fraction m e) /\
      (if s then f <= 0 else 0 <= f)
  | SpecFloat.S754_zero _ => f = 0
  | _ => False
  end.

(** The object that [PSE.__init__] builds from [script_600]. *)
Definition pse_600 : Lt.PSE :=
  Eval vm_compute in
  match Lt.PSE_init script_600 with
  | Ok p => p
  | Raise _ => pse_example
  end.

(** No time is above the next one. *)
Fixpoint nondecreasing (ts : list PrimFloat.float) : bool :=
  match ts with
  | a :: ts' =>
      match ts' with
      | b :: _ => PrimFloat.leb a b && nondecreasing ts'
      | [] => true
      end
  | [] => true
  end.

(** A script row that declares a duration that is not negative. *)
Definition not_negative (row : string) : Prop :=
  exists d, declared_duration row = Ok d /\ PrimFloat.leb PyFloat.fzero d = true.

(** The four files of [script_example]. *)
Definition files_example : list (string * list string) :=
  [("dac_en.txt",
    ["0.0u 0.0"; "1.0u 1.0"; "241.0u 1.0"; "242.0u 0.0"; "302.0u 0.0"; "303.0u 1.0";
     "783.0u 1.0"; "784.0u 0.0"; "1284.0u 0.0"; "1285.0u 0.0"; "1295.0u 0.0"]);
   ("amp_sel.txt",
    ["0.0u 0.0"; "1.0u 1.0"; "241.0u 1.0"; "242.0u 0.0"; "302.0u 0.0"; "303.0u 0.0";
     "783.0u 0.0"; "784.0u 0.0"; "1284.0u 0.0"; "1285.0u 0.0"; "1295.0u 0.0"]);
   ("rebal1.txt",
    ["0.0u 0.0"; "1.0u 0.0"; "241.0u 0.0"; "242.0u 0.0"; "302.0u 0.0"; "303.0u 0.0";
     "783.0u 0.0"; "784.0u 1.0"; "1284.0u 1.0"; "1285.0u 0.0"; "1295.0u 0.0"]);
   ("rebal2.txt",
    ["0.0u 0.0"; "1.0u 0.0"; "241.0u 0.0"; "242.0u 0.0"; "302.0u 0.0"; "303.0u 0.0";
     "783.0u 0.0"; "784.0u 1.0"; "1284.0u 1.0"; "1285.0u 0.0"; "1295.0u 0.0"])]%string.

(** The separator 28, which [str.isspace] takes for whitespace and
    [float()] does not, and the no-break space 160, which both do. *)
Definition file_separator : ascii := "028"%char.
Definition no_break_space : ascii := "160"%char.

(** * Properties *)

Local Open Scope py_scope.

(** ** The result monad and list indexing *)

Lemma bind_ok {A B : Type} (m : result A) (k : A -> result B) (b : B) :
  Py.bind m k = Ok b -> exists a, m = Ok a /\ k a = Ok b.
Proof. destruct m as [a|e]; simpl; [eauto | discriminate]. Qed.

Ltac inv_bind H :=
  let a := fresh "a" in
  let Ha := fresh "Ha" in
  apply bind_ok in H; destruct H as (a & Ha & H).

Lemma mapM_length {A B : Type} (f : A -> result B) (l : list A) (r : list B) :
  mapM f l = Ok r -> List.length r = List.length l.
Proof.
  revert r; induction l as [|a l IH]; intros r H; simpl in H.
  - injection H as <-; reflexivity.
  - inv_bind H. inv_bind H. injection H as <-. simpl. f_equal. auto.
Qed.

Lemma setitem_length {A : Type} (l r : list A) (i : nat) (v : A) :
  setitem l i v = Ok r -> List.length r = List.length l /\ (i < List.length l)%nat.
Proof.
  revert r i; induction l as [|a l IH]; intros r i H; simpl in H.
  - destruct i; discriminate.
  - destruct i.
    + injection H as <-. simpl. lia.
    + inv_bind H. injection H as <-. apply IH in Ha. simpl. lia.
Qed.

Lemma getitem_ge {A : Type} (l : list A) (i : nat) :
  (List.length l <= i)%nat -> getitem l i = Raise IndexError.
Proof.
  intros H. unfold getitem. apply nth_error_None in H. rewrite H. reflexivity.
Qed.

(** ** The shape of the ladder *)

Lemma expand_row_wide row e o :
  Lt.expand_row row = Ok (e, o) -> wide e /\ wide o.
Proof.
  unfold Lt.expand_row. intros H.
  inv_bind H. inv_bind H. inv_bind H. inv_bind H. injection H as <- <-.
  apply setitem_length in Ha, Ha0. apply mapM_length in Ha1, Ha2.
  unfold wide. lia.
Qed.

Lemma getitem_duration row : wide row -> getitem row 1 = Ok (duration row).
Proof.
  unfold wide, getitem, duration. destruct row as [|a [|b r]]; simpl; try lia. reflexivity.
Qed.

(** The first loop appends the edge and settle rows of every script row to
    the frame, and the settle duration to [times]. *)
Lemma expand_rows script : forall frame times,
  Lt.expand script frame times =
  (rows <- mapM Lt.expand_row script ;;
   Ok (frame ++ interleave rows, times ++ map (fun eo => duration (snd eo)) rows)%list).
Proof.
  induction script as [|row script IH]; intros frame times; simpl.
  - rewrite !app_nil_r. reflexivity.
  - destruct (Lt.expand_row row) as [[e o]|err] eqn:E; simpl; [|reflexivity].
    apply expand_row_wide in E. destruct E as [_ Ho].
    rewrite (getitem_duration _ Ho). simpl. rewrite IH.
    destruct (mapM Lt.expand_row script) as [rows|err]; simpl; [|reflexivity].
    rewrite <- !app_assoc. reflexivity.
Qed.

Lemma mapM_expand_row_wide script rows :
  mapM Lt.expand_row script = Ok rows -> Forall wide (interleave rows).
Proof.
  revert rows; induction script as [|row script IH]; intros rows H; simpl in H.
  - injection H as <-. constructor.
  - inv_bind H. inv_bind H. injection H as <-. destruct a as [e o].
    apply expand_row_wide in Ha. simpl. destruct Ha.
    constructor; [assumption|]. constructor; [assumption|]. apply IH; assumption.
Qed.

(** The second loop never fails on rows of two fields or more. *)
Lemma accumulate_stamp frame : forall acc,
  Forall wide frame -> Lt.accumulate frame acc = Ok (stamp acc frame).
Proof.
  induction frame as [|row frame IH]; intros acc H; simpl.
  - reflexivity.
  - inversion H as [|? ? Hr Hf]; subst.
    rewrite (getitem_duration _ Hr). simpl.
    destruct row as [|t row']; [unfold wide in Hr; simpl in Hr; lia|]. simpl.
    rewrite (IH _ Hf). reflexivity.
Qed.

(** The ladder as a function of the expanded rows. *)
Lemma ladder_rows script :
  Lt.ladder script =
  (rows <- mapM Lt.expand_row script ;;
   match rows with
   | [] => Raise IndexError
   | _ => Ok (stamp PyFloat.fzero (tl (interleave rows)),
              map (fun eo => duration (snd eo)) rows)
   end).
Proof.
  unfold Lt.ladder. rewrite expand_rows.
  destruct (mapM Lt.expand_row script) as [rows|err] eqn:E; simpl; [|reflexivity].
  apply mapM_expand_row_wide in E.
  destruct rows as [|[e o] rows]; [reflexivity|].
  unfold interleave in *.
  cbn [Py.bind flat_map fst snd app Lt.pop0 tl] in *.
  inversion E as [|? ? _ E']; subst.
  rewrite (accumulate_stamp _ _ E'). reflexivity.
Qed.

Lemma stamp_tl acc frame : map (@tl _) (stamp acc frame) = map (@tl _) frame.
Proof. revert acc; induction frame; intros; simpl; [|rewrite IHframe]; reflexivity. Qed.

Lemma stamp_hd acc frame :
  map (hd PrimFloat.nan) (stamp acc frame) = running acc (map duration frame).
Proof. revert acc; induction frame; intros; simpl; [|rewrite IHframe]; reflexivity. Qed.

Lemma stamp_length acc frame : List.length (stamp acc frame) = List.length frame.
Proof. revert acc; induction frame; intros; simpl; [|rewrite IHframe]; reflexivity. Qed.

Lemma interleave_length rows : List.length (interleave rows) = (2 * List.length rows)%nat.
Proof. induction rows; simpl; [|rewrite IHrows]; lia. Qed.

(** ** Success of the expansion *)

Lemma quantize_str_ok s :
  is_ok (PyFloat.of_string s) = true -> exists x, Lt.quantize (Lt.CStr s) = Ok x.
Proof.
  unfold Lt.quantize. simpl. destruct (PyFloat.of_string s); simpl; [eauto | discriminate].
Qed.

Lemma mapM_quantize_ok l :
  forallb (fun s => is_ok (PyFloat.of_string s)) l = true ->
  exists r, mapM Lt.quantize (map Lt.CStr l) = Ok r.
Proof.
  induction l as [|s l IH]; simpl; intros H.
  - eauto.
  - apply andb_true_iff in H. destruct H as [Hs Hl].
    destruct (quantize_str_ok _ Hs) as [x Hx]. destruct (IH Hl) as [r Hr].
    rewrite Hx, Hr. simpl. eauto.
Qed.

Lemma quantize_int_0 : Lt.quantize (Lt.CInt 0) = Ok PyFloat.fzero.
Proof. vm_compute. reflexivity. Qed.

Lemma quantize_rise_time : Lt.quantize (Lt.CInt Lt.rise_time) = Ok PyFloat.fone.
Proof. vm_compute. reflexivity. Qed.

Lemma expand_row_ok row :
  well_formed row = true -> exists e o, Lt.expand_row row = Ok (e, o).
Proof.
  unfold well_formed, Lt.expand_row.
  destruct (split "," row) as [|label [|d levels]]; try discriminate.
  intros H. cbn [map setitem Py.bind].
  simpl in H. apply andb_true_iff in H. destruct H as [Hd Hl].
  destruct (quantize_str_ok _ Hd) as [x Hx].
  destruct (mapM_quantize_ok _ Hl) as [r Hr].
  cbn [mapM].
  repeat (first [rewrite quantize_int_0 | rewrite quantize_rise_time
                | rewrite Hx | rewrite Hr]; cbn [Py.bind]).
  eauto.
Qed.

Lemma mapM_expand_row_ok script :
  forallb well_formed script = true -> exists rows, mapM Lt.expand_row script = Ok rows.
Proof.
  induction script as [|row script IH]; simpl; intros H.
  - eauto.
  - apply andb_true_iff in H. destruct H as [Hr Hs].
    destruct (expand_row_ok _ Hr) as (e & o & E). destruct (IH Hs) as [rows Hrows].
    rewrite E, Hrows. simpl. eauto.
Qed.

Lemma ladder_ok script frame times :
  Lt.ladder script = Ok (frame, times) ->
  exists r rows,
    mapM Lt.expand_row script = Ok (r :: rows) /\
    frame = stamp PyFloat.fzero (tl (interleave (r :: rows))) /\
    times = map (fun eo => duration (snd eo)) (r :: rows).
Proof.
  rewrite ladder_rows. intros H. inv_bind H.
  destruct a as [|r rows]; [discriminate|]. injection H as H1 H2.
  exists r, rows. split; [assumption|].
  split; [rewrite <- H1 | rewrite <- H2]; reflexivity.
Qed.

Lemma build_frame_ladder script frame t :
  Lt.build_frame_from_script script = Ok (frame, t) ->
  exists times, Lt.ladder script = Ok (frame, times).
Proof.
  unfold Lt.build_frame_from_script. intros H. inv_bind H. destruct a as [frame' times].
  repeat (inv_bind H). injection H as H _. exists times. rewrite <- H. assumption.
Qed.

Lemma build_frame_ok script :
  (6 <= List.length script)%nat -> forallb well_formed script = true ->
  exists frame t, Lt.build_frame_from_script script = Ok (frame, t).
Proof.
  intros Hlen Hwf. unfold Lt.build_frame_from_script. rewrite ladder_rows.
  destruct (mapM_expand_row_ok _ Hwf) as [rows Hrows]. rewrite Hrows.
  pose proof (mapM_length _ _ _ Hrows) as L.
  destruct rows as [|r0 [|r1 [|r2 [|r3 [|r4 [|r5 rows]]]]]]; simpl in L; try lia.
  cbn [Py.bind map getitem nth_error]. eauto.
Qed.

(** ** What the rows hold *)

Lemma expand_row_fields row e o :
  Lt.expand_row row = Ok (e, o) -> edge_of row e /\ settle_of row o.
Proof.
  unfold Lt.expand_row, edge_of, settle_of.
  destruct (split "," row) as [|label [|d levels]]; cbn [map setitem Py.bind];
    try discriminate.
  intros H. inv_bind H. inv_bind H. injection H as <- <-.
  split; exists label, d, levels; (split; [reflexivity | assumption]).
Qed.

Lemma mapM_expand_row_fields script rows :
  mapM Lt.expand_row script = Ok rows ->
  Forall2 (fun row eo => edge_of row (fst eo) /\ settle_of row (snd eo)) script rows.
Proof.
  revert rows; induction script as [|row script IH]; intros rows H; simpl in H.
  - injection H as <-. constructor.
  - inv_bind H. inv_bind H. injection H as <-. destruct a as [e o].
    constructor; [apply expand_row_fields; assumption | apply IH; assumption].
Qed.

Lemma round_half_even_nearest n d :
  0 <= n -> 0 < d ->
  0 <= PyFloat.round_half_even n d /\
  2 * Z.abs (n - PyFloat.round_half_even n d * d) <= d /\
  (2 * Z.abs (n - PyFloat.round_half_even n d * d) = d ->
   Z.even (PyFloat.round_half_even n d) = true).
Proof.
  intros Hn Hd. unfold PyFloat.round_half_even.
  pose proof (Z.div_mod n d ltac:(lia)) as E.
  pose proof (Z.mod_pos_bound n d Hd) as B.
  pose proof (Z.div_pos n d Hn Hd) as Q.
  set (q := n / d) in *. set (r := n mod d) in *.
  destruct (2 * r <? d) eqn:C1; [apply Z.ltb_lt in C1 | apply Z.ltb_ge in C1].
  - replace (n - q * d) with r by lia. repeat split; try lia.
  - destruct (d <? 2 * r) eqn:C2; [apply Z.ltb_lt in C2 | apply Z.ltb_ge in C2].
    + replace (n - (q + 1) * d) with (r - d) by lia. repeat split; try lia.
    + destruct (Z.even q) eqn:Ev.
      * replace (n - q * d) with r by lia. repeat split; try lia. intros _. exact Ev.
      * replace (n - (q + 1) * d) with (r - d) by lia. repeat split; try lia.
        intros _. rewrite Z.even_add, Ev. reflexivity.
Qed.

Lemma fraction_positive m e :
  0 <= fst (PyFloat.fraction m e) /\ 0 < snd (PyFloat.fraction m e).
Proof.
  unfold PyFloat.fraction. destruct (0 <=? e) eqn:He; cbn [fst snd].
  - apply Z.leb_le in He. split; [|lia].
    apply Z.mul_nonneg_nonneg; [lia|]. apply Z.pow_nonneg. lia.
  - split; [lia|]. apply Z.pow_pos_nonneg; [lia|]. apply Z.leb_gt in He. lia.
Qed.

(** [round(y, 1)] rounds to one decimal place. *)
Lemma round1_one_decimal y : one_decimal y (PyFloat.round1 y).
Proof.
  unfold one_decimal, PyFloat.round1.
  destruct (FloatOps.Prim2SF y) as [s|s| |s m e]; try reflexivity.
  destruct (fraction_positive m e) as [Hn Hd].
  destruct (PyFloat.fraction m e) as [n d]. cbn [fst snd] in *.
  destruct (round_half_even_nearest (10 * n) d ltac:(lia) Hd) as (K0 & K1 & K2).
  exists (PyFloat.round_half_even (10 * n) d). repeat split; assumption.
Qed.

Lemma quantize_tenths s x : Lt.quantize (Lt.CStr s) = Ok x -> tenths_of s x.
Proof.
  unfold Lt.quantize. cbn [Lt.float_of_cell]. intros H. inv_bind H.
  injection H as <-. exists a. split; [assumption | apply round1_one_decimal].
Qed.

Lemma mapM_quantize_tenths levels : forall ls,
  mapM Lt.quantize (map Lt.CStr levels) = Ok ls -> Forall2 tenths_of levels ls.
Proof.
  induction levels as [|l levels IH]; intros ls H; cbn [map mapM] in H.
  - injection H as <-. constructor.
  - inv_bind H. inv_bind H. injection H as <-.
    constructor; [apply quantize_tenths; assumption | apply IH; assumption].
Qed.

Lemma edge_of_row row e : edge_of row e -> edge_row row e.
Proof.
  intros (label & d & levels & Hs & Hm). cbn [mapM] in Hm.
  rewrite quantize_int_0, quantize_rise_time in Hm. cbn [Py.bind] in Hm.
  inv_bind Hm. injection Hm as <-. inv_bind Ha. injection Ha as <-.
  exists label, d, levels, a0. split; [assumption|]. split; [reflexivity|].
  apply mapM_quantize_tenths. assumption.
Qed.

Lemma settle_of_row row o : settle_of row o -> settle_row row o.
Proof.
  intros (label & d & levels & Hs & Hm). cbn [mapM] in Hm.
  rewrite quantize_int_0 in Hm. cbn [Py.bind] in Hm.
  apply bind_ok in Hm. destruct Hm as (r & Hr & Hm). injection Hm as <-.
  apply bind_ok in Hr. destruct Hr as (dq & Hdq & Hr).
  apply bind_ok in Hr. destruct Hr as (ls & Hls & Hr). injection Hr as <-.
  exists label, d, levels, dq, ls. split; [assumption|]. split; [reflexivity|].
  split; [apply quantize_tenths; assumption | apply mapM_quantize_tenths; assumption].
Qed.

Lemma rows_described script rows :
  mapM Lt.expand_row script = Ok rows ->
  Forall2 (fun row eo => edge_row row (fst eo) /\ settle_row row (snd eo)) script rows.
Proof.
  intros H. apply mapM_expand_row_fields in H. rename H into F.
  induction F as [|row eo script rows [He Ho] _ IH]; constructor; [|exact IH].
  split; [apply edge_of_row | apply settle_of_row]; assumption.
Qed.

Lemma settle_duration row o :
  settle_of row o -> declared_duration row = Ok (duration o).
Proof.
  intros (label & d & levels & Hs & Hm). unfold declared_duration. rewrite Hs.
  cbn [getitem nth_error Py.bind]. cbn [mapM] in Hm.
  inv_bind Hm. inv_bind Hm. inv_bind Ha0. inv_bind Ha0. injection Ha0 as <-.
  injection Hm as <-. rewrite Ha1. reflexivity.
Qed.

Lemma short_times_error (frame : list (list PrimFloat.float)) (times : list PrimFloat.float) :
  (List.length times < 6)%nat ->
  (pw <- getitem times 1 ;; dt0 <- getitem times 2 ;; rpw <- getitem times 3 ;;
   dt1 <- getitem times 4 ;; gap <- getitem times 5 ;;
   Ok (frame, {| Lt.pw := pw; Lt.dt0 := dt0; Lt.rpw := rpw; Lt.dt1 := dt1; Lt.gap := gap |}))
  = Raise IndexError.
Proof.
  intros H.
  destruct times as [|t0 [|t1 [|t2 [|t3 [|t4 [|t5 times]]]]]]; try reflexivity.
  simpl in H. lia.
Qed.

(** ** The ladder expander *)

(** C1: for the six-row script of the docstring, the named timing
    quantities are pulse width 240, first gap 60, rebalance width 480 and
    second gap 500 (and trailing gap 10), the period is 1280 and the
    frequency is 781. *)

Theorem example_timing :
  (p <- Lt.PSE_init script_example ;; Ok (Lt.named p, Lt.period p, Lt.frequency p)) =
  Ok ({| Lt.pw := Lt.lit 240 0; Lt.dt0 := Lt.lit 60 0; Lt.rpw := Lt.lit 480 0;
         Lt.dt1 := Lt.lit 500 0; Lt.gap := Lt.lit 10 0 |},
      Lt.lit 1280 0, 781).
Proof. vm_compute. reflexivity. Qed.

Lemma build_frame_six_rows script frame t :
  Lt.build_frame_from_script script = Ok (frame, t) -> (6 <= List.length script)%nat.
Proof.
  unfold Lt.build_frame_from_script. intros H. inv_bind H. destruct a as [frame' times].
  apply ladder_ok in Ha. destruct Ha as (r & rows & Hrows & _ & Ht).
  apply mapM_length in Hrows. rewrite <- Hrows.
  assert (L : List.length times = List.length (r :: rows)) by (rewrite Ht; apply length_map).
  rewrite <- L.
  destruct (Nat.lt_ge_cases (List.length times) 6) as [Hlt|Hge]; [|exact Hge].
  rewrite (short_times_error frame' times Hlt) in H. discriminate.
Qed.

(** C2, as stated, fails.  On the six-row script of the docstring the
    first row of the ladder is the settle row of the bookkeeping phase,
    with the duration 0 and the levels 0 0 0 0: it is neither the edge row
    nor the settle row of the first real phase, which come second and
    third.  On the script of the bookkeeping phase and one real phase no
    ladder is returned: the call raises [IndexError]. *)
Lemma first_row_is_bookkeeping_settle :
  Lt.build_frame_from_script script_example = Ok (frame_example, timing_example) /\
  Lt.expand_row "start,0,0,0,0,0" = Ok (floats [0; 1; 0; 0; 0; 0], floats [0; 0; 0; 0; 0; 0]) /\
  Lt.expand_row "pw,240,1,1,0,0" = Ok (floats [0; 1; 1; 1; 0; 0], floats [0; 240; 1; 1; 0; 0]) /\
  map (@tl _) (firstn 3 frame_example) =
    map (@tl _) [floats [0; 0; 0; 0; 0; 0]; floats [0; 1; 1; 1; 0; 0]; floats [0; 240; 1; 1; 0; 0]] /\
  tl (hd [] frame_example) <> tl (floats [0; 1; 1; 1; 0; 0]) /\
  tl (hd [] frame_example) <> tl (floats [0; 240; 1; 1; 0; 0]) /\
  Lt.build_frame_from_script script_two_phases = Raise IndexError.
Proof.
  repeat split; try (vm_compute; reflexivity);
    intros H; apply (f_equal (fun l => PrimFloat.eqb (nth 1 l PrimFloat.nan) PyFloat.fzero)) in H;
    vm_compute in H; discriminate.
Qed.

(** C2, amended: when [build_frame_from_script] returns, which takes a
    script of six phases or more, only the edge row of the first
    (bookkeeping) phase is discarded: but for the time stamps, the ladder is
    the settle row of the first phase followed by the edge row and the
    settle row of every later phase, so its first row is the settle row of
    the bookkeeping phase and a script of [n] phases gives [2 n - 1]
    rows. *)
Theorem ladder_drops_first_edge_only script frame t :
  Lt.build_frame_from_script script = Ok (frame, t) ->
  exists e0 o0 rows,
    Forall2 (fun row eo => edge_row row (fst eo) /\ settle_row row (snd eo))
      script ((e0, o0) :: rows) /\
    map (@tl _) frame = map (@tl _) (o0 :: interleave rows) /\
    List.length frame = (2 * List.length script - 1)%nat /\
    (6 <= List.length script)%nat.
Proof.
  intros H. pose proof (build_frame_six_rows _ _ _ H) as Hlen.
  apply build_frame_ladder in H. destruct H as [times H].
  apply ladder_ok in H. destruct H as ([e0 o0] & rows & Ha & -> & _).
  exists e0, o0, rows.
  split; [apply rows_described; assumption|].
  split; [apply stamp_tl|]. split; [|exact Hlen].
  rewrite stamp_length. apply mapM_length in Ha. rewrite <- Ha. simpl.
  rewrite interleave_length. lia.
Qed.

Lemma ladder_drops_first_edge_only_witness :
  exists e0 o0 rows,
    Forall2 (fun row eo => edge_row row (fst eo) /\ settle_row row (snd eo))
      script_example ((e0, o0) :: rows) /\
    map (@tl _) frame_example = map (@tl _) (o0 :: interleave rows) /\
    List.length frame_example = (2 * List.length script_example - 1)%nat /\
    (6 <= List.length script_example)%nat.
Proof.
  apply (ladder_drops_first_edge_only script_example frame_example timing_example).
  vm_compute. reflexivity.
Defined.






(** C10: every field of every row is rounded to one decimal place before
    the time stamps are accumulated: in the edge row of a script row the
    rise time is 1.0 and in its settle row the duration is the second field
    to one decimal place, the levels of both are the fields after it to one
    decimal place, and the label is 0.0; the time stamps of the ladder are
    the sums, from left to right, of the durations so rounded. *)
Theorem fields_quantized_before_accumulation script frame t :
  Lt.build_frame_from_script script = Ok (frame, t) ->
  exists rows,
    Forall2 (fun row eo => edge_row row (fst eo) /\ settle_row row (snd eo)) script rows /\
    map (@tl _) frame = map (@tl _) (tl (interleave rows)) /\
    stamps frame = running PyFloat.fzero (map duration (tl (interleave rows))).
Proof.
  intros H. apply build_frame_ladder in H. destruct H as [times H].
  apply ladder_ok in H. destruct H as (r & rows & Ha & -> & _).
  exists (r :: rows). split; [apply rows_described; assumption|].
  split; [apply stamp_tl | apply stamp_hd].
Qed.

Lemma fields_quantized_before_accumulation_witness :
  exists rows,
    Forall2 (fun row eo => edge_row row (fst eo) /\ settle_row row (snd eo))
      script_decimals rows /\
    map (@tl _) frame_decimals = map (@tl _) (tl (interleave rows)) /\
    stamps frame_decimals = running PyFloat.fzero (map duration (tl (interleave rows))).
Proof.
  apply (fields_quantized_before_accumulation script_decimals frame_decimals
           {| Lt.pw := Lt.lit 2403 (-1); Lt.dt0 := Lt.lit 600 (-1); Lt.rpw := Lt.lit 4799 (-1);
              Lt.dt1 := Lt.lit 5000 (-1); Lt.gap := Lt.lit 100 (-1) |}).
  vm_compute. reflexivity.
Defined.

(** C3, as stated, fails: for the period 600 the code gives the frequency
    1666, the quotient 1e6 / 600 = 1666.67 cut toward zero, where rounding
    gives 1667; and for a negative period, here -60, it gives -16666, not
    1. *)

Lemma frequency_truncates :
  (p <- Lt.PSE_init script_600 ;; Ok (Lt.period p, Lt.frequency p)) = Ok (Lt.lit 600 0, 1666) /\
  (q <- PyFloat.truediv (Lt.lit 1 6) (Lt.lit 600 0) ;; round_to_int q) = Ok 1667 /\
  (p <- Lt.PSE_init script_negative ;; Ok (Lt.period p, Lt.frequency p))
    = Ok (PyFloat.of_decimal true 60 0, -16666) /\
  PrimFloat.leb (PyFloat.of_decimal true 60 0) PyFloat.fzero = true.
Proof. repeat split; vm_compute; reflexivity. Qed.

Lemma to_int_cut q f : PyFloat.to_int q = Ok f -> cut_toward_zero q f.
Proof.
  unfold PyFloat.to_int, cut_toward_zero.
  destruct (FloatOps.Prim2SF q) as [s|s| |s m e]; try discriminate.
  - intros H. injection H as <-. reflexivity.
  - destruct (fraction_positive m e) as [Hn Hd].
    destruct (PyFloat.fraction m e) as [n d]. cbn [fst snd] in *.
    intros H. injection H as <-.
    pose proof (Z.div_mod n d ltac:(lia)) as E.
    pose proof (Z.mod_pos_bound n d Hd) as B.
    pose proof (Z.div_pos n d Hn Hd) as Q.
    destruct s.
    + rewrite Z.abs_opp, Z.abs_eq by lia. repeat split; nia.
    + rewrite Z.abs_eq by lia. repeat split; nia.
Qed.

(** C3, amended: the period is pulse width + first gap + rebalance width
    + second gap, added from left to right; the frequency is 1 when the
    period equals 0, with no exception, and otherwise it is [1e6 / period]
    cut toward zero by [int], not rounded. *)
Theorem period_and_frequency script p :
  Lt.PSE_init script = Ok p ->
  (exists frame, Lt.build_frame_from_script script = Ok (frame, Lt.named p)) /\
  Lt.period p =
    PrimFloat.add
      (PrimFloat.add (PrimFloat.add (Lt.pw (Lt.named p)) (Lt.dt0 (Lt.named p)))
                     (Lt.rpw (Lt.named p)))
      (Lt.dt1 (Lt.named p)) /\
  (PyFloat.eq (Lt.period p) PyFloat.fzero = true -> Lt.frequency p = 1) /\
  (PyFloat.eq (Lt.period p) PyFloat.fzero = false ->
     PyFloat.to_int (PrimFloat.div (Lt.lit 1 6) (Lt.period p)) = Ok (Lt.frequency p) /\
     cut_toward_zero (PrimFloat.div (Lt.lit 1 6) (Lt.period p)) (Lt.frequency p)) /\
  (forall period, PyFloat.eq period PyFloat.fzero = true -> Lt.frequency_of period = Ok 1).
Proof.
  unfold Lt.PSE_init. intros H. inv_bind H. destruct a as [frame t].
  inv_bind H. inv_bind H. injection H as <-. cbn [Lt.named Lt.period Lt.frequency].
  split; [eauto|]. split; [reflexivity|].
  unfold Lt.frequency_of, PyFloat.truediv in *.
  repeat split.
  - intros E. rewrite E in Ha1. congruence.
  - rewrite H in Ha1. exact Ha1.
  - apply to_int_cut. rewrite H in Ha1. exact Ha1.
  - intros period E. rewrite E. reflexivity.
Qed.

Lemma period_and_frequency_witness :
  (exists frame, Lt.build_frame_from_script script_600 = Ok (frame, Lt.named pse_600)) /\
  Lt.period pse_600 =
    PrimFloat.add
      (PrimFloat.add
         (PrimFloat.add (Lt.pw (Lt.named pse_600)) (Lt.dt0 (Lt.named pse_600)))
         (Lt.rpw (Lt.named pse_600)))
      (Lt.dt1 (Lt.named pse_600)) /\
  (PyFloat.eq (Lt.period pse_600) PyFloat.fzero = true -> Lt.frequency pse_600 = 1) /\
  (PyFloat.eq (Lt.period pse_600) PyFloat.fzero = false ->
     PyFloat.to_int (PrimFloat.div (Lt.lit 1 6) (Lt.period pse_600))
       = Ok (Lt.frequency pse_600) /\
     cut_toward_zero (PrimFloat.div (Lt.lit 1 6) (Lt.period pse_600)) (Lt.frequency pse_600)) /\
  (forall period, PyFloat.eq period PyFloat.fzero = true -> Lt.frequency_of period = Ok 1).
Proof.
  apply (period_and_frequency script_600 pse_600).
  vm_compute. reflexivity.
Defined.

(** ** The edge detector *)

(** C5: the trace with the values 0, 0, 1, 1, 0 at the times 0, 1, 2, 3, 4
    seconds and [max_val = 3] gives the breakpoints (0, 0), (2000000, 0),
    (2000001, 3), (4000000, 3), (4000001, 0), with the times in
    microseconds. *)

Theorem example_trace :
  Lt.csv_to_pwl (samples [0; 1; 2; 3; 4] [0; 0; 1; 1; 0]) 3 =
    Ok (["0u 0"; "2000000u 0"; "2000001u  3"; "4000000u 3"; "4000001u  0"],
        "PWL(0u 0 2000000u 0 2000001u  34000000u 3 4000001u  0)")%string /\
  map Lt.breakpoint ["0u 0"; "2000000u 0"; "2000001u  3"; "4000000u 3"; "4000001u  0"]%string =
    [Some (0, 0); Some (2000000, 0); Some (2000001, 3); Some (4000000, 3); Some (4000001, 0)].
Proof. split; vm_compute; reflexivity. Qed.

(** A trace whose first sample is not at time 0 makes [csv_to_pwl] raise
    [TypeError], whatever follows. *)
Lemma first_sample_not_at_zero t v df max_val :
  PyFloat.eq (PyFloat.rint (PrimFloat.mul t (Lt.lit 1 6))) PyFloat.fzero = false ->
  Lt.csv_to_pwl ((t, v) :: df) max_val = Raise TypeError.
Proof.
  intros H. unfold Lt.csv_to_pwl, Lt.changes.
  cbn [map snd Lt.diff].
  change (Lt.ne0 PrimFloat.nan) with true.
  cbn [Lt.select map fst snd Lt.emit_all].
  unfold Lt.emit at 1. cbn [fst snd]. rewrite H. reflexivity.
Qed.

(** C4 at a trace that does not start at time 0: the samples (1 s, 0) and
    (2 s, 1) are both changes, and the loop, which takes the row with time
    0 for the first one, formats [previous_value], still [None], and raises
    [TypeError]; no row is emitted for the first change. *)

Theorem trace_not_starting_at_zero :
  Lt.changes (samples [1; 2] [0; 1]) 3 = [(Lt.lit 1000000 0, 0); (Lt.lit 2000000 0, 3)] /\
  Lt.csv_to_pwl (samples [1; 2] [0; 1]) 3 = Raise TypeError.
Proof. split; vm_compute; reflexivity. Qed.

(** ** The cycle replicator *)

(** C6 at the default arguments of [make_ac_pwl_file_for_spice], with
    [cycles = 2]: the call raises when the table [dfs] is built, five rows
    of six fields under ten column names, so that nothing of the function
    after it is run, whatever it is: neither the loop over the cycles nor
    the writing of the files.  No copy of the base is produced where three
    are expected. *)

Theorem cycle_replicator_not_reached :
  exists e,
    Lt.make_ac_pwl_file_for_spice_dfs (-1000) 240 60 2 500 2 = Raise e /\
    forall (A : Type) (rest : list (list (option Z)) -> result A),
      (dfs <- Lt.make_ac_pwl_file_for_spice_dfs (-1000) 240 60 2 500 2 ;; rest dfs) = Raise e.
Proof.
  exists ValueError.
  assert (E : Lt.make_ac_pwl_file_for_spice_dfs (-1000) 240 60 2 500 2 = Raise ValueError)
    by (vm_compute; reflexivity).
  split; [exact E|]. intros A rest. rewrite E. reflexivity.
Qed.

(** ** Adding a float that is not negative *)



Lemma digits2_bounds m :
  2 ^ (Z.pos (SpecFloat.digits2_pos m) - 1) <= Z.pos m < 2 ^ Z.pos (SpecFloat.digits2_pos m).
Proof.
  induction m as [m IH|m IH|]; cbn [SpecFloat.digits2_pos].
  - rewrite Pos2Z.inj_succ, Pos2Z.inj_xI.
    replace (Z.succ (Z.pos (SpecFloat.digits2_pos m)) - 1)
      with (Z.succ (Z.pos (SpecFloat.digits2_pos m) - 1)) by lia.
    rewrite !Z.pow_succ_r by lia.
    generalize dependent (2 ^ (Z.pos (SpecFloat.digits2_pos m) - 1)).
    generalize (2 ^ Z.pos (SpecFloat.digits2_pos m)). intros; lia.
  - rewrite Pos2Z.inj_succ. change (Z.pos m~0) with (2 * Z.pos m).
    replace (Z.succ (Z.pos (SpecFloat.digits2_pos m)) - 1)
      with (Z.succ (Z.pos (SpecFloat.digits2_pos m) - 1)) by lia.
    rewrite !Z.pow_succ_r by lia.
    generalize dependent (2 ^ (Z.pos (SpecFloat.digits2_pos m) - 1)).
    generalize (2 ^ Z.pos (SpecFloat.digits2_pos m)). intros; lia.
  - simpl. lia.
Qed.

Lemma shr_1_half r : 0 <= SpecFloat.shr_m r -> SpecFloat.shr_m (SpecFloat.shr_1 r) = SpecFloat.shr_m r / 2.
Proof.
  destruct r as [m b s]. cbn [SpecFloat.shr_m]. intros H.
  rewrite <- Z.div2_div.
  destruct m as [|[p|p|]|p]; try reflexivity. lia.
Qed.

Lemma pow2_xI p : 2 ^ Z.pos p~1 = 2 * 2 ^ Z.pos p * 2 ^ Z.pos p.
Proof.
  replace (Z.pos p~1) with (1 + Z.pos p + Z.pos p) by lia.
  rewrite !Z.pow_add_r by lia. reflexivity.
Qed.

Lemma pow2_xO p : 2 ^ Z.pos p~0 = 2 ^ Z.pos p * 2 ^ Z.pos p.
Proof.
  replace (Z.pos p~0) with (Z.pos p + Z.pos p) by lia.
  rewrite !Z.pow_add_r by lia. reflexivity.
Qed.

Lemma iter_shr_1 p : forall r,
  0 <= SpecFloat.shr_m r ->
  SpecFloat.shr_m (SpecFloat.iter_pos SpecFloat.shr_1 p r) = SpecFloat.shr_m r / 2 ^ Z.pos p.
Proof.
  induction p as [p IH|p IH|]; intros r H; cbn [SpecFloat.iter_pos].
  - assert (P : 0 < 2 ^ Z.pos p) by (apply Z.pow_pos_nonneg; lia).
    assert (H1 : 0 <= SpecFloat.shr_m (SpecFloat.shr_1 r))
      by (rewrite shr_1_half by assumption; apply Z.div_pos; lia).
    assert (H2 : 0 <= SpecFloat.shr_m (SpecFloat.iter_pos SpecFloat.shr_1 p (SpecFloat.shr_1 r)))
      by (rewrite IH by assumption; apply Z.div_pos; assumption).
    rewrite IH, IH, shr_1_half by assumption.
    rewrite pow2_xI. rewrite !Z.div_div by lia. f_equal. lia.
  - assert (P : 0 < 2 ^ Z.pos p) by (apply Z.pow_pos_nonneg; lia).
    assert (H2 : 0 <= SpecFloat.shr_m (SpecFloat.iter_pos SpecFloat.shr_1 p r))
      by (rewrite IH by assumption; apply Z.div_pos; assumption).
    rewrite IH, IH by assumption.
    rewrite pow2_xO. rewrite !Z.div_div by lia. f_equal.
  - rewrite shr_1_half by assumption. reflexivity.
Qed.

Lemma shr_shift r e n :
  0 <= SpecFloat.shr_m r ->
  SpecFloat.shr_m (fst (SpecFloat.shr r e n)) = SpecFloat.shr_m r / 2 ^ Z.max 0 n /\
  snd (SpecFloat.shr r e n) = e + Z.max 0 n.
Proof.
  intros H. unfold SpecFloat.shr. destruct n as [|p|p]; cbn [fst snd].
  - rewrite Z.div_1_r. split; [reflexivity | lia].
  - rewrite iter_shr_1 by assumption. rewrite Z.max_r by lia. split; reflexivity.
  - rewrite Z.max_l by lia. rewrite Z.div_1_r. split; [reflexivity | lia].
Qed.

Lemma shr_fexp_shift prec emax m e l :
  0 <= m ->
  SpecFloat.shr_m (fst (SpecFloat.shr_fexp prec emax m e l)) =
    m / 2 ^ Z.max 0 (SpecFloat.fexp prec emax (SpecFloat.Zdigits2 m + e) - e) /\
  snd (SpecFloat.shr_fexp prec emax m e l) = e + Z.max 0 (SpecFloat.fexp prec emax (SpecFloat.Zdigits2 m + e) - e).
Proof.
  intros H. unfold SpecFloat.shr_fexp.
  assert (E : SpecFloat.shr_m (SpecFloat.shr_record_of_loc m l) = m) by (destruct l as [|[]]; reflexivity).
  pose proof (shr_shift (SpecFloat.shr_record_of_loc m l) e
                (SpecFloat.fexp prec emax (SpecFloat.Zdigits2 m + e) - e)) as S.
  rewrite E in S. apply S. assumption.
Qed.

Lemma round_nearest_even_bounds m l :
  m <= SpecFloat.round_nearest_even m l <= m + 1.
Proof. destruct l as [|[]]; cbn [SpecFloat.round_nearest_even]; try destruct (Z.even m); lia. Qed.

Lemma shift_pos_quotient prec emax M e :
  0 < prec -> 0 < M -> SpecFloat.emin prec emax <= e ->
  0 < M / 2 ^ Z.max 0 (SpecFloat.fexp prec emax (SpecFloat.Zdigits2 M + e) - e).
Proof.
  intros Hp HM He. destruct M as [|p|p]; try lia. cbn [SpecFloat.Zdigits2].
  pose proof (digits2_bounds p) as [D1 D2].
  set (d := Z.pos (SpecFloat.digits2_pos p)) in *.
  destruct (Z.le_gt_cases (SpecFloat.fexp prec emax (d + e) - e) 0) as [C|C].
  - rewrite Z.max_l by assumption. rewrite Z.div_1_r. lia.
  - rewrite Z.max_r by lia.
    assert (E : SpecFloat.fexp prec emax (d + e) - e = d - prec).
    { unfold SpecFloat.fexp in *. lia. }
    rewrite E in *. apply Z.div_str_pos. split; [apply Z.pow_pos_nonneg; lia|].
    apply Z.le_trans with (2 ^ (d - 1)); [|assumption].
    apply Z.pow_le_mono_r; lia.
Qed.

Lemma binary_round_aux_ge prec emax M ez mx ex :
  0 < prec -> 0 < M -> SpecFloat.emin prec emax <= ez -> ez <= ex ->
  ex <= SpecFloat.fexp prec emax (SpecFloat.Zdigits2 M + ez) ->
  Z.pos mx * 2 ^ (ex - ez) <= M ->
  match SpecFloat.binary_round_aux prec emax false M ez SpecFloat.loc_Exact with
  | SpecFloat.S754_finite false m e => ex < e \/ (e = ex /\ (mx <= m)%positive)
  | SpecFloat.S754_infinity false => True
  | _ => False
  end.
Proof.
  intros Hp HM Hmin Hez Hfexp Hx. unfold SpecFloat.binary_round_aux.
  destruct (shr_fexp_shift prec emax M ez SpecFloat.loc_Exact) as [S1 E1]; [lia|].
  pose proof (shift_pos_quotient prec emax M ez Hp HM Hmin) as P1.
  destruct (SpecFloat.shr_fexp prec emax M ez SpecFloat.loc_Exact) as [mrs' e'].
  cbn [fst snd] in S1, E1.
  pose proof (round_nearest_even_bounds (SpecFloat.shr_m mrs')
                (SpecFloat.loc_of_shr_record mrs')) as R.
  set (M2 := SpecFloat.round_nearest_even (SpecFloat.shr_m mrs')
               (SpecFloat.loc_of_shr_record mrs')) in *.
  assert (N1 : Z.max 0 (SpecFloat.fexp prec emax (SpecFloat.Zdigits2 M + ez) - ez) =
               SpecFloat.fexp prec emax (SpecFloat.Zdigits2 M + ez) - ez) by lia.
  rewrite N1 in *. rewrite <- S1 in P1.
  assert (HM2 : 0 < M2) by lia.
  assert (Hmin' : SpecFloat.emin prec emax <= e') by lia.
  destruct (shr_fexp_shift prec emax M2 e' SpecFloat.loc_Exact) as [S2 E2]; [lia|].
  pose proof (shift_pos_quotient prec emax M2 e' Hp HM2 Hmin') as P2.
  destruct (SpecFloat.shr_fexp prec emax M2 e' SpecFloat.loc_Exact) as [mrs'' e''].
  cbn [fst snd] in S2, E2. rewrite <- S2 in P2.
  destruct (SpecFloat.shr_m mrs'') as [|m|m] eqn:Em; try lia.
  destruct (e'' <=? emax - prec); [|exact I].
  destruct (Z.eq_dec e'' ex) as [Eq|Ne]; [right | left; lia].
  split; [exact Eq|].
  assert (Z0 : Z.max 0 (SpecFloat.fexp prec emax (SpecFloat.Zdigits2 M2 + e') - e') = 0) by lia.
  rewrite Z0, Z.div_1_r in S2.
  assert (E3 : SpecFloat.fexp prec emax (SpecFloat.Zdigits2 M + ez) - ez = ex - ez) by lia.
  rewrite E3 in S1.
  assert (L : Z.pos mx <= M / 2 ^ (ex - ez)).
  { apply Z.div_le_lower_bound; [apply Z.pow_pos_nonneg; lia | lia]. }
  change (Z.pos mx <= Z.pos m). lia.
Qed.

Lemma iter_xO m d : Z.pos (Pos.iter xO m d) = Z.pos m * 2 ^ Z.pos d.
Proof.
  induction d as [|d IH] using Pos.peano_ind.
  - cbn [Pos.iter]. rewrite Z.pow_1_r. lia.
  - rewrite Pos.iter_succ, Pos2Z.inj_succ, Z.pow_succ_r by lia.
    change (Z.pos (Pos.iter xO m d)~0) with (2 * Z.pos (Pos.iter xO m d)).
    rewrite IH. lia.
Qed.

Lemma shl_align_scale mx ex ez :
  ez <= ex -> Z.pos (fst (SpecFloat.shl_align mx ex ez)) = Z.pos mx * 2 ^ (ex - ez).
Proof.
  intros H. unfold SpecFloat.shl_align. destruct (ez - ex) as [|p|p] eqn:D; cbn [fst].
  - replace (ex - ez) with 0 by lia. lia.
  - lia.
  - rewrite iter_xO. replace (ex - ez) with (Z.pos p) by lia. reflexivity.
Qed.

Lemma bounded_emin prec emax m e :
  SpecFloat.bounded prec emax m e = true ->
  SpecFloat.fexp prec emax (Z.pos (SpecFloat.digits2_pos m) + e) = e /\
  SpecFloat.emin prec emax <= e.
Proof.
  unfold SpecFloat.bounded, SpecFloat.canonical_mantissa. intros H.
  apply andb_true_iff in H. destruct H as [H _]. apply Z.eqb_eq in H.
  split; [exact H|]. unfold SpecFloat.fexp in H. lia.
Qed.

(** The sum of two positive floats is not below the first one. *)
Lemma SFadd_positive_ge mx ex md ed :
  SpecFloat.bounded FloatOps.prec FloatOps.emax mx ex = true ->
  SpecFloat.bounded FloatOps.prec FloatOps.emax md ed = true ->
  match SpecFloat.SFadd FloatOps.prec FloatOps.emax
          (SpecFloat.S754_finite false mx ex) (SpecFloat.S754_finite false md ed) with
  | SpecFloat.S754_finite false m e => ex < e \/ (e = ex /\ (mx <= m)%positive)
  | SpecFloat.S754_infinity false => True
  | _ => False
  end.
Proof.
  intros Bx Bd.
  destruct (bounded_emin _ _ _ _ Bx) as [Cx Mx].
  destruct (bounded_emin _ _ _ _ Bd) as [Cd Md].
  unfold SpecFloat.SFadd. cbn [SpecFloat.cond_Zopp].
  set (ez := Z.min ex ed).
  assert (Hx : ez <= ex) by apply Z.le_min_l.
  assert (Hd : ez <= ed) by apply Z.le_min_r.
  pose proof (shl_align_scale mx ex ez Hx) as A.
  pose proof (shl_align_scale md ed ez Hd) as B.
  set (a := fst (SpecFloat.shl_align mx ex ez)) in *.
  set (b := fst (SpecFloat.shl_align md ed ez)) in *.
  change (Z.pos a + Z.pos b) with (Z.pos (a + b)).
  cbn [SpecFloat.binary_normalize]. unfold SpecFloat.binary_round.
  assert (S : Z.pos (a + b) = Z.pos a + Z.pos b) by reflexivity.
  pose proof (digits2_bounds mx) as [Dx _].
  pose proof (digits2_bounds (a + b)) as [_ Dm].
  assert (Pw : 0 < 2 ^ (ex - ez)) by (apply Z.pow_pos_nonneg; lia).
  assert (G : Z.pos mx * 2 ^ (ex - ez) <= Z.pos (a + b)) by lia.
  assert (Dg : Z.pos (SpecFloat.digits2_pos mx) + ex <= Z.pos (SpecFloat.digits2_pos (a + b)) + ez).
  { assert (T : 2 ^ (Z.pos (SpecFloat.digits2_pos mx) - 1 + (ex - ez))
                < 2 ^ Z.pos (SpecFloat.digits2_pos (a + b))).
    { rewrite Z.pow_add_r by lia.
      apply Z.le_lt_trans with (Z.pos mx * 2 ^ (ex - ez)); [|lia].
      apply Z.mul_le_mono_nonneg_r; lia. }
    apply Z.pow_lt_mono_r_iff in T; lia. }
  assert (Fx : ex <= SpecFloat.fexp FloatOps.prec FloatOps.emax
                       (Z.pos (SpecFloat.digits2_pos (a + b)) + ez)).
  { rewrite <- Cx at 1. unfold SpecFloat.fexp. lia. }
  assert (Al : SpecFloat.shl_align (a + b) ez
                 (SpecFloat.fexp FloatOps.prec FloatOps.emax
                    (Z.pos (SpecFloat.digits2_pos (a + b)) + ez)) = ((a + b)%positive, ez)).
  { unfold SpecFloat.shl_align.
    destruct (SpecFloat.fexp FloatOps.prec FloatOps.emax
                (Z.pos (SpecFloat.digits2_pos (a + b)) + ez) - ez) eqn:D; try reflexivity. lia. }
  rewrite Al.
  apply binary_round_aux_ge; try assumption; try lia.
  reflexivity.
Qed.

Lemma SFleb_refl_finite m e :
  SpecFloat.SFleb (SpecFloat.S754_finite false m e) (SpecFloat.S754_finite false m e) = true.
Proof.
  unfold SpecFloat.SFleb, SpecFloat.SFcompare. rewrite Z.compare_refl.
  change (Pos.compare_cont Eq m m) with (Pos.compare m m). rewrite Pos.compare_refl. reflexivity.
Qed.

Lemma SFadd_not_below x d :
  SpecFloat.valid_binary FloatOps.prec FloatOps.emax x = true ->
  SpecFloat.valid_binary FloatOps.prec FloatOps.emax d = true ->
  SpecFloat.SFleb (SpecFloat.S754_zero false) x = true ->
  SpecFloat.SFleb (SpecFloat.S754_zero false) d = true ->
  SpecFloat.SFleb (SpecFloat.S754_zero false)
    (SpecFloat.SFadd FloatOps.prec FloatOps.emax x d) = true /\
  SpecFloat.SFleb x (SpecFloat.SFadd FloatOps.prec FloatOps.emax x d) = true.
Proof.
  intros Vx Vd Hx Hd.
  destruct x as [sx|sx| |sx mx ex]; destruct d as [sd|sd| |sd md ed];
    try discriminate;
    try (destruct sx; try discriminate); try (destruct sd; try discriminate);
    try (split; reflexivity);
    try (split; [reflexivity | apply SFleb_refl_finite]).
  cbn [SpecFloat.valid_binary] in Vx, Vd.
  pose proof (SFadd_positive_ge mx ex md ed Vx Vd) as G.
  destruct (SpecFloat.SFadd FloatOps.prec FloatOps.emax
              (SpecFloat.S754_finite false mx ex) (SpecFloat.S754_finite false md ed))
    as [s|s| |s m e]; try contradiction.
  - destruct s; [contradiction|]. split; reflexivity.
  - destruct s; [contradiction|]. split; [reflexivity|].
    unfold SpecFloat.SFleb, SpecFloat.SFcompare.
    destruct G as [G|[-> G]].
    + apply Z.compare_lt_iff in G. rewrite G. reflexivity.
    + rewrite Z.compare_refl.
      change (Pos.compare_cont Eq mx m) with (Pos.compare mx m).
      unfold Pos.le in G. destruct (Pos.compare mx m); [reflexivity | reflexivity | congruence].
Qed.

(** Adding a float that is not negative to a float that is not negative
    gives a float that is not negative, and not below the first. *)
Lemma add_not_below x d :
  PrimFloat.leb PrimFloat.zero x = true -> PrimFloat.leb PrimFloat.zero d = true ->
  PrimFloat.leb PrimFloat.zero (PrimFloat.add x d) = true /\
  PrimFloat.leb x (PrimFloat.add x d) = true.
Proof.
  rewrite !FloatAxioms.leb_spec, FloatAxioms.add_spec.
  assert (Z : FloatOps.Prim2SF PrimFloat.zero = SpecFloat.S754_zero false) by reflexivity.
  rewrite Z. apply SFadd_not_below; apply FloatAxioms.Prim2SF_valid.
Qed.

(** ** The channel serializer *)

Lemma nth_pad n i row : nth i (Lt.pad n row) PrimFloat.nan = nth i row PrimFloat.nan.
Proof.
  unfold Lt.pad. destruct (Nat.lt_ge_cases i (List.length row)) as [H|H].
  - apply app_nth1. assumption.
  - rewrite app_nth2 by assumption. rewrite (nth_overflow row) by assumption.
    apply nth_repeat.
Qed.

Lemma pwl_line_pad n col row : Lt.pwl_line col (Lt.pad n row) = Lt.pwl_line col row.
Proof. unfold Lt.pwl_line. rewrite !nth_pad. reflexivity. Qed.

Lemma spice_make_pwl_DataFrame frame n dfs col :
  Lt.DataFrame frame n = Ok dfs -> Lt.spice_make_pwl dfs col = Lt.spice_make_pwl frame col.
Proof.
  unfold Lt.DataFrame, Lt.spice_make_pwl. destruct frame as [|r frame].
  - intros H. injection H as <-. reflexivity.
  - destruct (Nat.eqb _ n); [|discriminate]. intros H.
    assert (E : dfs = map (Lt.pad n) (r :: frame)) by (injection H as H; symmetry; exact H).
    rewrite E. rewrite map_map. apply map_ext. intros row. apply pwl_line_pad.
Qed.

(** C9, as stated, fails on a script with a duration of 0.5 and a
    duration of 0: the times are written as decimals, [1.5u] is not a whole
    number of microseconds, and the time 2.5 comes twice, so the times are
    not strictly ascending. *)

Lemma serialized_times_not_integer_not_strict :
  (p <- Lt.PSE_init script_half ;;
   Ok (nth 0 (Lt.files p) (EmptyString, []), stamps (Lt.frame p),
       ascending (stamps (Lt.frame p)), forallb integral (stamps (Lt.frame p)))) =
  Ok (("dac_en.txt",
       ["0.0u 0.0"; "1.0u 1.0"; "1.5u 1.0"; "2.5u 0.0"; "2.5u 0.0"; "3.5u 1.0";
        "483.5u 1.0"; "484.5u 0.0"; "984.5u 0.0"; "985.5u 0.0"; "995.5u 0.0"])%string,
      [Lt.lit 0 0; Lt.lit 1 0; Lt.lit 15 (-1); Lt.lit 25 (-1); Lt.lit 25 (-1); Lt.lit 35 (-1);
       Lt.lit 4835 (-1); Lt.lit 4845 (-1); Lt.lit 9845 (-1); Lt.lit 9855 (-1); Lt.lit 9955 (-1)],
      false, false).
Proof. vm_compute. reflexivity. Qed.

Lemma running_nondecreasing ds : forall acc,
  PrimFloat.leb PyFloat.fzero acc = true ->
  forallb (PrimFloat.leb PyFloat.fzero) ds = true ->
  nondecreasing (acc :: running acc ds) = true.
Proof.
  induction ds as [|d ds IH]; intros acc Ha Hd; [reflexivity|].
  cbn [forallb] in Hd. apply andb_true_iff in Hd. destruct Hd as [H0 Hd].
  destruct (add_not_below acc d Ha H0) as [P L].
  cbn [running]. change (nondecreasing (acc :: PrimFloat.add acc d :: running (PrimFloat.add acc d) ds))
    with (PrimFloat.leb acc (PrimFloat.add acc d) &&
          nondecreasing (PrimFloat.add acc d :: running (PrimFloat.add acc d) ds)).
  rewrite L, (IH _ P Hd). reflexivity.
Qed.

Lemma nondecreasing_tl a ts : nondecreasing (a :: ts) = true -> nondecreasing ts = true.
Proof. destruct ts as [|b ts]; [reflexivity|]. cbn [nondecreasing]. intros H.
  apply andb_true_iff in H. tauto. Qed.

Lemma edge_duration row e : edge_of row e -> duration e = PyFloat.fone.
Proof.
  intros H. apply edge_of_row in H. destruct H as (label & d & levels & ls & _ & -> & _).
  reflexivity.
Qed.

Lemma durations_not_negative script rows :
  Forall not_negative script ->
  Forall2 (fun row eo => edge_of row (fst eo) /\ settle_of row (snd eo)) script rows ->
  forallb (PrimFloat.leb PyFloat.fzero) (map duration (interleave rows)) = true.
Proof.
  intros N F. induction F as [|row [e o] script rows [He Ho] _ IH]; [reflexivity|].
  inversion N as [|? ? (d & Hd & Hp) N']; subst.
  cbn [fst snd] in He, Ho.
  cbn [interleave flat_map fst snd app map forallb]. fold (interleave rows).
  rewrite (edge_duration _ _ He).
  rewrite (settle_duration _ _ Ho) in Hd. injection Hd as <-. rewrite Hp.
  rewrite (IH N'). reflexivity.
Qed.

Lemma pwl_line_form col frame :
  map (Lt.pwl_line col) frame =
  map (fun row => (PyFloat.str (hd PrimFloat.nan row) ++ "u " ++
                   PyFloat.str (nth col row PrimFloat.nan))%string) frame.
Proof. apply map_ext. intros [|x row]; reflexivity. Qed.

(** C9, amended: each channel file has one line per row of the ladder, in
    the order of the ladder, of the form [str(time)], [u], a space,
    [str(value)], both numbers printed as Python prints a float (241.0,
    1.5); the times are the sums, from left to right, of the durations of
    the rows, so that they are in ascending order, though not strictly so,
    when no phase declares a negative duration. *)
Theorem files_follow_ladder script p :
  Lt.PSE_init script = Ok p ->
  Lt.files p =
    map (fun channel =>
           (fst channel,
            map (fun row => (PyFloat.str (hd PrimFloat.nan row) ++ "u " ++
                             PyFloat.str (nth (snd channel) row PrimFloat.nan))%string)
                (Lt.frame p)))
        [("dac_en.txt", 2); ("amp_sel.txt", 3); ("rebal1.txt", 4); ("rebal2.txt", 5)]%nat%string /\
  (exists rows,
     Forall2 (fun row eo => edge_row row (fst eo) /\ settle_row row (snd eo)) script rows /\
     stamps (Lt.frame p) = running PyFloat.fzero (map duration (tl (interleave rows)))) /\
  (Forall not_negative script -> nondecreasing (stamps (Lt.frame p)) = true).
Proof.
  unfold Lt.PSE_init. intros H. inv_bind H. destruct a as [frame t].
  inv_bind H. inv_bind H. injection H as <-. cbn [Lt.files Lt.frame].
  unfold Lt.make_pwl_files_from_frame in Ha0. inv_bind Ha0.
  assert (E : forall col, Lt.spice_make_pwl a1 col = map (Lt.pwl_line col) frame).
  { intros col. apply (spice_make_pwl_DataFrame _ _ _ col) in Ha2. exact Ha2. }
  apply build_frame_ladder in Ha. destruct Ha as [times Ha].
  apply ladder_ok in Ha. destruct Ha as (r & rows & Hrows & Hf & _).
  split; [|split].
  - injection Ha0 as Ha0. rewrite <- Ha0. cbn [map fst snd nth Lt.columns].
    rewrite !E, !pwl_line_form. reflexivity.
  - exists (r :: rows). split; [apply rows_described; assumption|].
    rewrite Hf. apply stamp_hd.
  - intros N. rewrite Hf. unfold stamps. rewrite stamp_hd.
    pose proof (durations_not_negative _ _ N (mapM_expand_row_fields _ _ Hrows)) as D.
    destruct r as [e o]. cbn [interleave flat_map fst snd app tl map forallb] in *.
    fold (interleave rows) in *.
    apply andb_true_iff in D. destruct D as [_ D].
    apply nondecreasing_tl with (a := PyFloat.fzero).
    apply running_nondecreasing; [reflexivity | exact D].
Qed.

Lemma files_follow_ladder_witness :
  Lt.files pse_example = files_example /\
  (exists rows,
     Forall2 (fun row eo => edge_row row (fst eo) /\ settle_row row (snd eo))
       script_example rows /\
     stamps (Lt.frame pse_example) =
       running PyFloat.fzero (map duration (tl (interleave rows)))) /\
  nondecreasing (stamps (Lt.frame pse_example)) = true.
Proof.
  destruct (files_follow_ladder script_example pse_example) as (F & R & N).
  - vm_compute. reflexivity.
  - split; [|split].
    + rewrite F. vm_compute. reflexivity.
    + exact R.
    + apply N. repeat constructor;
        (eexists; split; [vm_compute; reflexivity | vm_compute; reflexivity]).
Defined.

(** ** The unit scaler *)

Ltac by_cases_on c :=
  destruct c as [[] [] [] [] [] [] [] []]; vm_compute; intuition discriminate.

Lemma digit_not_space c : is_digit c = true -> is_space c = false.
Proof. by_cases_on c. Qed.

Lemma digit_not_equals c : is_digit c = true -> not_equals_sign c = true.
Proof. by_cases_on c. Qed.

Lemma letter_not_equals c : is_letter c = true -> not_equals_sign c = true.
Proof. by_cases_on c. Qed.

Lemma letter_not_digit c : is_letter c = true -> is_digit c = false.
Proof. by_cases_on c. Qed.

Lemma digit_lower c : is_digit c = true -> lower_char c = c.
Proof. by_cases_on c. Qed.

Lemma digit_not_underscore c : is_digit c = true -> Ascii.eqb c "_" = false.
Proof. by_cases_on c. Qed.

Lemma digit_not_sign c s : is_digit c = true -> PyFloat.take_sign (String c s) = (false, String c s).
Proof. by_cases_on c. Qed.

Lemma all_app p s1 s2 : all p (s1 ++ s2) = all p s1 && all p s2.
Proof. induction s1; simpl; [reflexivity|]. rewrite IHs1. apply andb_assoc. Qed.

Lemma all_impl (p q : ascii -> bool) s :
  (forall c, p c = true -> q c = true) -> all p s = true -> all q s = true.
Proof.
  intros I. induction s; simpl; [reflexivity|]. intros H.
  apply andb_true_iff in H. destruct H. rewrite I, IHs by assumption. reflexivity.
Qed.

(** [split('=')] on a string without the sign, and at the first sign. *)
Lemma split_whole s : all not_equals_sign s = true -> split "=" s = [s].
Proof.
  induction s as [|c s IH]; simpl; [reflexivity|]. intros H.
  apply andb_true_iff in H. destruct H as [Hc Hs].
  unfold not_equals_sign in Hc. apply negb_true_iff in Hc. rewrite Hc.
  rewrite (IH Hs). reflexivity.
Qed.

Lemma split_at_equals name rest :
  all not_equals_sign name = true ->
  split "=" (name ++ String "=" rest) = name :: split "=" rest.
Proof.
  induction name as [|c name IH]; simpl; [reflexivity|]. intros H.
  apply andb_true_iff in H. destruct H as [Hc Hs].
  unfold not_equals_sign in Hc. apply negb_true_iff in Hc. rewrite Hc.
  rewrite (IH Hs). reflexivity.
Qed.

(** Strings of digits: the search, [float()] and [lower()]. *)
Lemma take_digits_app digits letters :
  all is_digit digits = true -> all is_letter letters = true ->
  take_digits (digits ++ letters) = digits.
Proof.
  intros Hd Hl. induction digits as [|c digits IH]; simpl in *.
  - destruct letters as [|c l]; simpl in *; [reflexivity|].
    apply andb_true_iff in Hl. destruct Hl as [Hc _].
    rewrite (letter_not_digit _ Hc). reflexivity.
  - apply andb_true_iff in Hd. destruct Hd as [Hc Hd]. rewrite Hc, (IH Hd). reflexivity.
Qed.

Lemma search_digits_app digits letters :
  digits <> EmptyString ->
  all is_digit digits = true -> all is_letter letters = true ->
  search_digits (digits ++ letters) = Some digits.
Proof.
  intros Hne Hd Hl. destruct digits as [|c digits]; [congruence|].
  pose proof (take_digits_app _ _ Hd Hl) as T.
  simpl in Hd. apply andb_true_iff in Hd. destruct Hd as [Hc Hd].
  cbn [append search_digits]. rewrite Hc. f_equal. exact T.
Qed.

Lemma take_digits_all s : all is_digit s = true -> take_digits s = s.
Proof.
  induction s; simpl; [reflexivity|]. intros H. apply andb_true_iff in H.
  destruct H as [Hc Hs]. rewrite Hc, IHs by assumption. reflexivity.
Qed.

Lemma drop_digits_all s : all is_digit s = true -> drop_digits s = EmptyString.
Proof.
  induction s; simpl; [reflexivity|]. intros H. apply andb_true_iff in H.
  destruct H as [Hc Hs]. rewrite Hc. auto.
Qed.

Lemma lstrip_digits s : all is_digit s = true -> PyFloat.lstrip s = s.
Proof.
  destruct s; simpl; [reflexivity|]. intros H. apply andb_true_iff in H.
  destruct H as [Hc _]. rewrite (digit_not_space _ Hc). reflexivity.
Qed.

Lemma rstrip_digits s : all is_digit s = true -> PyFloat.rstrip s = s.
Proof.
  induction s as [|c s IH]; simpl; [reflexivity|]. intros H. apply andb_true_iff in H.
  destruct H as [Hc Hs]. rewrite (IH Hs). rewrite (digit_not_space _ Hc).
  destruct s; reflexivity.
Qed.

Lemma remove_underscores_digits s : forall prev,
  all is_digit s = true ->
  match prev with Some p => is_digit p = true | None => True end ->
  PyFloat.remove_underscores prev s = Some s.
Proof.
  induction s as [|c s IH]; intros prev H P; simpl.
  - destruct prev as [p|]; [|reflexivity].
    destruct p as [[] [] [] [] [] [] [] []]; try reflexivity; vm_compute in P; discriminate P.
  - simpl in H. apply andb_true_iff in H. destruct H as [Hc Hs].
    rewrite (digit_not_underscore _ Hc).
    rewrite (IH (Some c) Hs Hc). simpl.
    destruct prev as [p|]; [|reflexivity].
    destruct p as [[] [] [] [] [] [] [] []]; try reflexivity; vm_compute in P; discriminate P.
Qed.

Lemma append_empty s : (s ++ EmptyString)%string = s.
Proof. induction s; simpl; [|rewrite IHs]; reflexivity. Qed.

Lemma of_string_digits digits :
  digits <> EmptyString -> all is_digit digits = true ->
  PyFloat.of_string digits = Ok (PyFloat.of_decimal false (digits_value digits) 0).
Proof.
  intros Hne H. unfold PyFloat.of_string, PyFloat.strip.
  rewrite (lstrip_digits _ H), (rstrip_digits _ H).
  rewrite (remove_underscores_digits _ None H I).
  destruct digits as [|c digits]; [congruence|].
  assert (Hc : is_digit c = true) by (simpl in H; apply andb_true_iff in H; tauto).
  rewrite (digit_not_sign _ _ Hc).
  unfold PyFloat.parse_decimal.
  rewrite (take_digits_all _ H), (drop_digits_all _ H).
  rewrite append_empty. reflexivity.
Qed.

Lemma prefix_head c d sub s :
  c <> d -> String.prefix (String c sub) (String d s) = false.
Proof. intros H. simpl. destruct (ascii_dec c d); [contradiction | reflexivity]. Qed.

Lemma find_from_contains sub s : forall i,
  (contains sub s = false -> find_from sub s i = -1) /\
  (contains sub s = true -> i <= find_from sub s i).
Proof.
  induction s as [|c s IH]; intros i.
  - cbn [contains find_from]. destruct (String.prefix sub EmptyString); simpl; split; intros; try discriminate; lia.
  - cbn [contains find_from]. destruct (String.prefix sub (String c s)); simpl.
    + split; intros; [discriminate | lia].
    + destruct (IH (i + 1)) as [H1 H2]. split; intros H; [auto|]. specialize (H2 H). lia.
Qed.

Lemma find_from_positive sub s i :
  1 <= i -> (0 <? find_from sub s i) = contains sub s.
Proof.
  intros Hi. destruct (find_from_contains sub s i) as [H1 H2].
  destruct (contains sub s).
  - specialize (H2 eq_refl). apply Z.ltb_lt. lia.
  - rewrite (H1 eq_refl). reflexivity.
Qed.

Lemma digit_differs c d : is_digit c = false -> is_digit d = true -> c <> d.
Proof. intros Hc Hd E. subst. congruence. Qed.

Lemma contains_after_digits c sub digits l :
  is_digit c = false -> all is_digit digits = true ->
  contains (String c sub) (digits ++ l) = contains (String c sub) l.
Proof.
  intros Hc. induction digits as [|d digits IH]; intros H; [reflexivity|].
  simpl in H. apply andb_true_iff in H. destruct H as [Hd Hs].
  cbn [append contains]. rewrite (prefix_head _ _ _ _ (digit_differs _ _ Hc Hd)).
  simpl. apply IH. assumption.
Qed.

Lemma find_after_digits c sub digits l :
  is_digit c = false -> digits <> EmptyString -> all is_digit digits = true ->
  (0 <? find (digits ++ l) (String c sub)) = contains (String c sub) l.
Proof.
  intros Hc Hne H. destruct digits as [|d digits]; [congruence|].
  simpl in H. apply andb_true_iff in H. destruct H as [Hd Hs].
  unfold find. cbn [append find_from].
  rewrite (prefix_head _ _ _ _ (digit_differs _ _ Hc Hd)).
  rewrite find_from_positive by lia. apply contains_after_digits; assumption.
Qed.

Lemma lower_digits s : all is_digit s = true -> lower s = s.
Proof.
  induction s; simpl; [reflexivity|]. intros H. apply andb_true_iff in H.
  destruct H as [Hc Hs]. rewrite (digit_lower _ Hc), IHs by assumption. reflexivity.
Qed.

Lemma lower_app s1 s2 : lower (s1 ++ s2) = (lower s1 ++ lower s2)%string.
Proof. induction s1; simpl; [|rewrite IHs1]; reflexivity. Qed.

Lemma prefix_app sub : forall s,
  String.prefix sub s = true <-> exists b, s = (sub ++ b)%string.
Proof.
  induction sub as [|c sub IH]; intros s.
  - destruct s; simpl; split; intros; eauto.
  - destruct s as [|d s]; simpl.
    + split; [discriminate | intros [b Hb]; discriminate].
    + destruct (ascii_dec c d) as [->|N].
      * rewrite IH. split; intros [b Hb]; exists b; [rewrite Hb; reflexivity | injection Hb; auto].
      * split; [discriminate | intros [b Hb]; injection Hb; congruence].
Qed.

(** [contains sub s] holds exactly when [s] is [a ++ sub ++ b]. *)
Lemma contains_occurs sub s :
  contains sub s = true <-> exists a b, s = (a ++ sub ++ b)%string.
Proof.
  induction s as [|c s IH]; cbn [contains].
  - rewrite orb_false_r, prefix_app. split.
    + intros [b Hb]. exists EmptyString, b. exact Hb.
    + intros (a & b & H). destruct a; simpl in H; [eauto | discriminate].
  - rewrite orb_true_iff, prefix_app, IH. split.
    + intros [[b Hb] | (a & b & H)].
      * exists EmptyString, b. exact Hb.
      * exists (String c a), b. simpl. rewrite H. reflexivity.
    + intros (a & b & H). destruct a as [|c' a]; simpl in H.
      * left. eauto.
      * right. injection H as _ H. eauto.
Qed.

(** Matching a suffix in the lower-cased text is matching it without
    regard to case. *)
Lemma letter_is_lower l c :
  In l ["m"; "e"; "g"; "k"; "u"; "n"; "p"]%char ->
  (if ascii_dec l (lower_char c) then true else false) = letter_is l c.
Proof.
  intros H. cbn [In] in H.
  destruct H as [<-|[<-|[<-|[<-|[<-|[<-|[<-|[]]]]]]]];
    destruct c as [[] [] [] [] [] [] [] []]; vm_compute; reflexivity.
Qed.

Lemma begins_with_lower sub : forall s,
  all (fun l => existsb (Ascii.eqb l) ["m"; "e"; "g"; "k"; "u"; "n"; "p"]%char) sub = true ->
  begins_with sub s = String.prefix sub (lower s).
Proof.
  induction sub as [|l sub IH]; intros s H.
  - destruct s; reflexivity.
  - cbn [all] in H. apply andb_true_iff in H. destruct H as [Hl Hs].
    destruct s as [|c s]; [reflexivity|].
    cbn [begins_with lower String.prefix]. rewrite (IH s Hs).
    assert (I : In l ["m"; "e"; "g"; "k"; "u"; "n"; "p"]%char).
    { apply existsb_exists in Hl. destruct Hl as (x & Hx & E).
      apply Ascii.eqb_eq in E. subst x. exact Hx. }
    rewrite <- (letter_is_lower l c I).
    destruct (ascii_dec l (lower_char c)); reflexivity.
Qed.

Lemma occurs_lower sub s :
  all (fun l => existsb (Ascii.eqb l) ["m"; "e"; "g"; "k"; "u"; "n"; "p"]%char) sub = true ->
  occurs sub s = contains sub (lower s).
Proof.
  intros H. induction s as [|c s IH].
  - cbn [occurs contains lower]. rewrite (begins_with_lower sub EmptyString H). reflexivity.
  - cbn [occurs contains lower]. rewrite (begins_with_lower sub (String c s) H), IH.
    reflexivity.
Qed.

Lemma multiplier_lower letters :
  multiplier letters =
  if contains "meg" (lower letters) then Some (Lt.lit 1 6)
  else if contains "k" (lower letters) then Some (Lt.lit 1 3)
  else if contains "m" (lower letters) then Some (Lt.lit 1 (-3))
  else if contains "u" (lower letters) then Some (Lt.lit 1 (-6))
  else if contains "n" (lower letters) then Some (Lt.lit 1 (-9))
  else if contains "p" (lower letters) then Some (Lt.lit 1 (-12))
  else None.
Proof. unfold multiplier. rewrite !occurs_lower by reflexivity. reflexivity. Qed.

(** C8: for a string [name=<digits><letters>], the number is the float of
    the digits and it is multiplied by the multiplier of the first of meg,
    k, m, u, n, p, in this order, that occurs in the letters, each of its
    letters small or capital: 1e6, 1e3, 1e-3, 1e-6, 1e-9, 1e-12; it is
    returned as it is when none occurs. *)

Theorem unit_scaler name digits letters :
  all not_equals_sign name = true ->
  digits <> EmptyString -> all is_digit digits = true ->
  all is_letter letters = true ->
  exists val,
    PyFloat.of_string digits = Ok val /\
    Lt.parse_param_string (name ++ "=" ++ digits ++ letters) = Ok (scaled val letters).
Proof.
  intros Hname Hne Hd Hl.
  exists (PyFloat.of_decimal false (digits_value digits) 0).
  split; [apply of_string_digits; assumption|].
  unfold Lt.parse_param_string.
  change (name ++ "=" ++ digits ++ letters)%string
    with (name ++ String "=" (digits ++ letters))%string.
  rewrite (split_at_equals _ _ Hname).
  rewrite split_whole.
  2:{ rewrite all_app. rewrite (all_impl _ _ _ digit_not_equals Hd).
      rewrite (all_impl _ _ _ letter_not_equals Hl). reflexivity. }
  cbn [getitem nth_error Py.bind].
  rewrite (search_digits_app _ _ Hne Hd Hl). cbn [group Py.bind].
  rewrite (of_string_digits _ Hne Hd). cbn [Py.bind].
  rewrite lower_app, (lower_digits _ Hd).
  rewrite !find_after_digits by (assumption || reflexivity).
  unfold scaled. rewrite multiplier_lower.
  repeat (match goal with |- context [if contains ?a ?b then _ else _] =>
            destruct (contains a b) end; try reflexivity).
Qed.

Lemma unit_scaler_witness :
  exists val,
    PyFloat.of_string "22" = Ok val /\
    Lt.parse_param_string ("C" ++ "=" ++ "22" ++ "MeG") = Ok (scaled val "MeG").
Proof.
  apply (unit_scaler "C" "22" "MeG"); [reflexivity | discriminate | reflexivity | reflexivity].
Defined.

(** ** Further properties of the ladder expander *)

Lemma mapM_nth {A B : Type} (f : A -> result B) (l : list A) (r : list B) :
  mapM f l = Ok r ->
  forall i b, nth_error r i = Some b -> exists a, nth_error l i = Some a /\ f a = Ok b.
Proof.
  revert r; induction l as [|a l IH]; intros r H i b Hb; simpl in H.
  - injection H as <-. destruct i; discriminate.
  - inv_bind H. inv_bind H. injection H as <-. destruct i as [|i]; simpl in *.
    + injection Hb as <-. eauto.
    + eapply IH; eassumption.
Qed.

Lemma getitem_ok {A : Type} (l : list A) i a : getitem l i = Ok a -> nth_error l i = Some a.
Proof. unfold getitem. destruct (nth_error l i); [intros H; injection H as <-; reflexivity | discriminate]. Qed.

Lemma named_duration script rows times i x :
  mapM Lt.expand_row script = Ok rows ->
  times = map (fun eo => duration (snd eo)) rows ->
  getitem times i = Ok x ->
  declared_duration (nth i script EmptyString) = Ok x.
Proof.
  intros Hrows -> Hx. apply getitem_ok in Hx.
  rewrite nth_error_map in Hx. destruct (nth_error rows i) as [[e o]|] eqn:E; [|discriminate].
  simpl in Hx. injection Hx as <-.
  destruct (mapM_nth _ _ _ Hrows _ _ E) as (row & Hrow & Hexp).
  rewrite (nth_error_nth _ _ _ Hrow).
  apply expand_row_fields in Hexp. destruct Hexp as [_ Hs].
  apply settle_duration. exact Hs.
Qed.

(** X2: the named timing quantities that [build_frame_from_script] returns
    are the quantized second fields of the script rows 1 to 5: pulse width
    of row 1, first gap of row 2, rebalance width of row 3, second gap of
    row 4 and trailing gap of row 5; the first row, the rows after the
    sixth and all the levels have no part in them. *)

Theorem named_timing_is_declared script frame t :
  Lt.build_frame_from_script script = Ok (frame, t) ->
  declared_duration (nth 1 script EmptyString) = Ok (Lt.pw t) /\
  declared_duration (nth 2 script EmptyString) = Ok (Lt.dt0 t) /\
  declared_duration (nth 3 script EmptyString) = Ok (Lt.rpw t) /\
  declared_duration (nth 4 script EmptyString) = Ok (Lt.dt1 t) /\
  declared_duration (nth 5 script EmptyString) = Ok (Lt.gap t).
Proof.
  unfold Lt.build_frame_from_script. intros H. inv_bind H. destruct a as [frame' times].
  apply ladder_ok in Ha. destruct Ha as (r & rows & Hrows & _ & Ht).
  inv_bind H. inv_bind H. inv_bind H. inv_bind H. inv_bind H.
  assert (E : t = {| Lt.pw := a; Lt.dt0 := a0; Lt.rpw := a1; Lt.dt1 := a2; Lt.gap := a3 |})
    by (injection H as _ H; symmetry; exact H).
  rewrite E. cbn [Lt.pw Lt.dt0 Lt.rpw Lt.dt1 Lt.gap].
  repeat split; eapply named_duration; eassumption.
Qed.

Lemma named_timing_is_declared_witness :
  declared_duration (nth 1 script_example EmptyString) = Ok (Lt.pw (Lt.named pse_example)) /\
  declared_duration (nth 2 script_example EmptyString) = Ok (Lt.dt0 (Lt.named pse_example)) /\
  declared_duration (nth 3 script_example EmptyString) = Ok (Lt.rpw (Lt.named pse_example)) /\
  declared_duration (nth 4 script_example EmptyString) = Ok (Lt.dt1 (Lt.named pse_example)) /\
  declared_duration (nth 5 script_example EmptyString) = Ok (Lt.gap (Lt.named pse_example)).
Proof.
  apply (named_timing_is_declared script_example (Lt.frame pse_example)).
  vm_compute. reflexivity.
Defined.

(** X1: on a script of six rows or more, each with a label, a duration
    and levels that are float literals, [build_frame_from_script] returns,
    and the frame has two rows for every script row but one. *)

Theorem build_frame_succeeds script :
  (6 <= List.length script)%nat -> forallb well_formed script = true ->
  exists frame t,
    Lt.build_frame_from_script script = Ok (frame, t) /\
    List.length frame = (2 * List.length script - 1)%nat.
Proof.
  intros Hlen Hwf. unfold Lt.build_frame_from_script. rewrite ladder_rows.
  destruct (mapM_expand_row_ok _ Hwf) as [rows Hrows]. rewrite Hrows.
  pose proof (mapM_length _ _ _ Hrows) as L.
  destruct rows as [|r0 [|r1 [|r2 [|r3 [|r4 [|r5 rows]]]]]]; simpl in L; try lia.
  cbn [Py.bind map getitem nth_error].
  eexists _, _. split; [reflexivity|].
  rewrite stamp_length. cbn [tl interleave flat_map app List.length].
  fold (interleave rows). rewrite interleave_length. rewrite <- L. simpl. lia.
Qed.

Lemma build_frame_succeeds_witness :
  exists frame t,
    Lt.build_frame_from_script script_example = Ok (frame, t) /\
    List.length frame = (2 * List.length script_example - 1)%nat.
Proof.
  apply build_frame_succeeds; [simpl; lia | vm_compute; reflexivity].
Defined.

Lemma split_cons sep s : exists p ps, split sep s = p :: ps.
Proof.
  induction s as [|c s (p & ps & IH)]; simpl; [eauto|].
  destruct (Ascii.eqb c sep); [eauto|]. rewrite IH. eauto.
Qed.

Lemma expand_row_same row1 row2 :
  same_fields row1 row2 -> Lt.expand_row row1 = Lt.expand_row row2.
Proof.
  unfold same_fields, Lt.expand_row. intros H.
  destruct (split_cons "," row1) as (p1 & ps1 & E1).
  destruct (split_cons "," row2) as (p2 & ps2 & E2).
  rewrite E1, E2 in *. simpl in H. subst ps2. reflexivity.
Qed.

(** X3: the labels never count: two scripts whose rows have the same
    fields after the label give the same frame and the same named timing
    quantities, or the same error. *)

Theorem labels_ignored script1 script2 :
  Forall2 same_fields script1 script2 ->
  Lt.build_frame_from_script script1 = Lt.build_frame_from_script script2.
Proof.
  intros H. unfold Lt.build_frame_from_script. rewrite !ladder_rows.
  assert (E : mapM Lt.expand_row script1 = mapM Lt.expand_row script2).
  { induction H as [|r1 r2 s1 s2 Hr _ IH]; simpl; [reflexivity|].
    rewrite (expand_row_same _ _ Hr), IH. reflexivity. }
  rewrite E. reflexivity.
Qed.

Lemma labels_ignored_witness :
  Lt.build_frame_from_script
    ["a,0,0,0,0,0"; "b,240,1,1,0,0"; "c,60,0,0,0,0"; "d,480,1,0,0,0"; "e,500,0,0,1,1"; ",10,0,0,0,0"]%string
  = Lt.build_frame_from_script script_example.
Proof.
  apply labels_ignored. repeat constructor.
Defined.

Lemma expand_row_length row e o :
  Lt.expand_row row = Ok (e, o) ->
  List.length e = List.length (split "," row) /\ List.length o = List.length (split "," row).
Proof.
  unfold Lt.expand_row. intros H.
  inv_bind H. inv_bind H. inv_bind H. inv_bind H. injection H as <- <-.
  apply setitem_length in Ha, Ha0. apply mapM_length in Ha1, Ha2.
  rewrite length_map in Ha. lia.
Qed.

Lemma interleave_widths script rows k :
  mapM Lt.expand_row script = Ok rows ->
  Forall (fun row => List.length (split "," row) = k) script ->
  Forall (fun row => List.length row = k) (interleave rows).
Proof.
  revert rows; induction script as [|row script IH]; intros rows H F; simpl in H.
  - injection H as <-. constructor.
  - inv_bind H. inv_bind H. injection H as <-. destruct a as [e o].
    inversion F as [|? ? Fr Fs]; subst.
    apply expand_row_length in Ha. destruct Ha as [He Ho].
    simpl. constructor; [congruence|]. constructor; [congruence|]. apply IH; assumption.
Qed.

Lemma stamp_widths k : forall frame acc,
  (1 <= k)%nat ->
  Forall (fun row => List.length row = k) frame ->
  Forall (fun row => List.length row = k) (stamp acc frame).
Proof.
  induction frame as [|row frame IH]; intros acc Hk F; simpl; [constructor|].
  inversion F as [|? ? Fr Fs]; subst. constructor; [|apply IH; assumption].
  destruct row; simpl in *; lia.
Qed.

Lemma width_uniform k frame :
  frame <> [] -> Forall (fun row => List.length row = k) frame -> Lt.width frame = k.
Proof.
  intros Hne F. induction F as [|row frame Hr F IH]; [congruence|].
  unfold Lt.width in *. simpl. destruct frame as [|r frame].
  - simpl. lia.
  - rewrite IH by discriminate. lia.
Qed.

Lemma frame_widths script frame t k :
  (1 <= k)%nat ->
  Forall (fun row => List.length (split "," row) = k) script ->
  Lt.build_frame_from_script script = Ok (frame, t) ->
  frame <> [] /\ Forall (fun row => List.length row = k) frame.
Proof.
  intros Hk F H.
  apply build_frame_ladder in H. destruct H as [times H].
  unfold Lt.build_frame_from_script in *.
  pose proof H as H'. rewrite ladder_rows in H'. inv_bind H'.
  apply ladder_ok in H. destruct H as (r & rows & Hrows & -> & _).
  pose proof (interleave_widths _ _ _ Hrows F) as W.
  destruct r as [e o]. simpl in W. inversion W as [|? ? _ W']; subst.
  split.
  - simpl. discriminate.
  - apply stamp_widths; assumption.
Qed.

Lemma DataFrame_width_error frame n :
  frame <> [] -> Lt.width frame <> n -> Lt.DataFrame frame n = Raise ValueError.
Proof.
  intros Hne Hw. unfold Lt.DataFrame. destruct frame; [congruence|].
  apply Nat.eqb_neq in Hw. rewrite Hw. reflexivity.
Qed.

Lemma well_formed_fields row : well_formed row = true -> (2 <= List.length (split "," row))%nat.
Proof.
  unfold well_formed. destruct (split "," row) as [|l [|d r]]; try discriminate.
  intros _. simpl. lia.
Qed.

(** X4: [PSE.__init__] accepts scripts of four channels only: when every
    row of a well-formed script of six rows or more has [k] fields and [k]
    is not 6, the frame is built but the table of
    [make_pwl_files_from_frame], which names six columns, is refused, and
    the call raises. *)
Theorem PSE_rejects_other_widths script k :
  k <> 6%nat ->
  Forall (fun row => List.length (split "," row) = k) script ->
  (6 <= List.length script)%nat -> forallb well_formed script = true ->
  (exists frame t, Lt.build_frame_from_script script = Ok (frame, t)) /\
  (exists e, Lt.PSE_init script = Raise e).
Proof.
  intros Hk6 F Hlen Hwf.
  assert (Hk : (1 <= k)%nat).
  { destruct script as [|row script]; [simpl in Hlen; lia|].
    inversion F as [|? ? Fr _]; subst. simpl in Hwf. apply andb_true_iff in Hwf.
    destruct Hwf as [Hw _]. apply well_formed_fields in Hw. lia. }
  destruct (build_frame_ok _ Hlen Hwf) as (frame & t & H).
  split; [eauto|].
  destruct (frame_widths _ _ _ _ Hk F H) as [Hne W].
  unfold Lt.PSE_init. rewrite H. cbn [Py.bind].
  unfold Lt.make_pwl_files_from_frame.
  rewrite DataFrame_width_error; [eexists; reflexivity | assumption |].
  rewrite (width_uniform _ _ Hne W). exact Hk6.
Qed.

Lemma PSE_rejects_other_widths_witness :
  (exists frame t,
     Lt.build_frame_from_script
       ["start,0,0,0"; "pw,240,1,1"; "dt0,60,0,0"; "rpw,480,1,0"; "dt1,500,0,0"; "gap,10,0,0"]%string
     = Ok (frame, t)) /\
  (exists e,
     Lt.PSE_init
       ["start,0,0,0"; "pw,240,1,1"; "dt0,60,0,0"; "rpw,480,1,0"; "dt1,500,0,0"; "gap,10,0,0"]%string
     = Raise e).
Proof.
  apply (PSE_rejects_other_widths _ 4%nat).
  - discriminate.
  - repeat constructor.
  - simpl. lia.
  - vm_compute. reflexivity.
Defined.

(** X5: on a frame of rows of six fields, [make_pwl_files_from_frame]
    writes four files, [dac_en.txt], [amp_sel.txt], [rebal1.txt] and
    [rebal2.txt] in this order, each with one line per row of the frame;
    no file is written for the time and duration columns. *)

Theorem four_channel_files frame :
  frame <> [] -> Forall (fun row => List.length row = 6%nat) frame ->
  exists files,
    Lt.make_pwl_files_from_frame frame = Ok files /\
    map fst files = ["dac_en.txt"; "amp_sel.txt"; "rebal1.txt"; "rebal2.txt"]%string /\
    Forall (fun file => List.length (snd file) = List.length frame) files.
Proof.
  intros Hne W. unfold Lt.make_pwl_files_from_frame, Lt.DataFrame.
  rewrite (width_uniform _ _ Hne W). destruct frame as [|r frame]; [congruence|].
  cbn [List.length Lt.columns Nat.eqb Py.bind].
  eexists. split; [reflexivity|]. split; [reflexivity|].
  unfold Lt.spice_make_pwl. repeat constructor; cbn [snd]; rewrite !length_map; reflexivity.
Qed.

Lemma four_channel_files_witness :
  exists files,
    Lt.make_pwl_files_from_frame (Lt.frame pse_example) = Ok files /\
    map fst files = ["dac_en.txt"; "amp_sel.txt"; "rebal1.txt"; "rebal2.txt"]%string /\
    Forall (fun file => List.length (snd file) = List.length (Lt.frame pse_example)) files.
Proof.
  apply four_channel_files; [discriminate | repeat constructor].
Defined.

(** ** Further properties of the edge detector *)

Lemma fmt_ok v : printable v -> Lt.format_int_0f v = Ok (fmt v).
Proof. intros [s H]. unfold fmt. rewrite H. reflexivity. Qed.

Lemma append_nil_r s : (s ++ EmptyString)%string = s.
Proof. induction s; simpl; [|rewrite IHs]; reflexivity. Qed.

Lemma append_assoc' (a b c : string) : ((a ++ b) ++ c = a ++ (b ++ c))%string.
Proof. induction a; simpl; [|rewrite IHa]; reflexivity. Qed.

Lemma emit_all_edges dn : forall previous c lines,
  printable previous ->
  Forall (fun r => PyFloat.eq (fst r) PyFloat.fzero = false /\ printable (snd r)) dn ->
  Lt.emit_all {| Lt.previous_value := Some previous; Lt.cmd_str := Some c; Lt.f := lines |} dn =
  Ok {| Lt.previous_value := Some (fold_left (fun _ r => snd r) dn previous);
        Lt.cmd_str := Some (c ++ glue (edges previous dn))%string;
        Lt.f := lines ++ flat_map (fun p => [fst p; snd p]) (edges previous dn) |}.
Proof.
  induction dn as [|r dn IH]; intros previous c lines Hp F.
  - simpl. rewrite app_nil_r, append_nil_r. reflexivity.
  - inversion F as [|? ? [Ht Hv] F']; subst.
    cbn [Lt.emit_all]. unfold Lt.emit at 1. rewrite Ht.
    cbn [Lt.previous_value Lt.cmd_str Lt.f].
    rewrite (fmt_ok _ Hp), (fmt_ok _ Hv). cbn [Py.bind].
    rewrite (IH (snd r) _ _ Hv F').
    cbn [edges glue flat_map fold_left fst snd].
    fold (hold_line (fst r) previous). fold (step_line (fst r) (snd r)).
    rewrite <- app_assoc. rewrite !append_assoc'. reflexivity.
Qed.

Lemma changes_values df max_val :
  Forall (fun r => snd r = 0 \/ snd r = max_val) (Lt.changes df max_val).
Proof.
  unfold Lt.changes. apply Forall_forall. intros r H. apply in_map_iff in H.
  destruct H as (x & <- & _). simpl. destruct (Lt.ne0 (snd x)); auto.
Qed.

Lemma printable_0 : printable 0.
Proof. eexists. vm_compute. reflexivity. Qed.

(** X7: when the first sample is at time 0 and no later change is, and
    [max_val] can be printed, [csv_to_pwl] writes one line for the first
    sample and, for every later change at time [t], the line that holds
    the value before it at [t] and the line that sets the new value at
    [t + 1]: [2 k - 1] lines for [k] changes.  The string returned is
    [PWL(], the first line, a space, and the pairs, with a space inside a
    pair but nothing between two pairs, and [)]. *)

Theorem csv_to_pwl_from_zero df max_val t0 v0 rest :
  Lt.changes df max_val = (t0, v0) :: rest ->
  PyFloat.eq t0 PyFloat.fzero = true ->
  Forall (fun r => PyFloat.eq (fst r) PyFloat.fzero = false) rest ->
  printable max_val ->
  Lt.csv_to_pwl df max_val =
    Ok (hold_line t0 v0 :: flat_map (fun p => [fst p; snd p]) (edges v0 rest),
        ("PWL(" ++ hold_line t0 v0 ++ " " ++ glue (edges v0 rest) ++ ")")%string) /\
  List.length (hold_line t0 v0 :: flat_map (fun p => [fst p; snd p]) (edges v0 rest)) =
    (2 * List.length (Lt.changes df max_val) - 1)%nat.
Proof.
  intros Hc Ht0 Hrest Hmax.
  pose proof (changes_values df max_val) as V. rewrite Hc in V.
  assert (P : forall r : PrimFloat.float * Z, snd r = 0 \/ snd r = max_val -> printable (snd r)).
  { intros r [-> | ->]; [apply printable_0 | exact Hmax]. }
  inversion V as [|? ? V0 Vr]; subst.
  split.
  - unfold Lt.csv_to_pwl. rewrite Hc. cbn [Lt.emit_all].
    unfold Lt.emit at 1. cbn [fst snd]. rewrite Ht0.
    rewrite (fmt_ok v0 (P (t0, v0) V0)). cbn [Py.bind Lt.f app].
    fold (hold_line t0 v0).
    rewrite emit_all_edges.
    + cbn [Py.bind Lt.cmd_str Lt.f app]. rewrite !append_assoc'. reflexivity.
    + exact (P (t0, v0) V0).
    + apply Forall_forall. intros r Hr. split.
      * exact (proj1 (Forall_forall _ _) Hrest r Hr).
      * apply P. exact (proj1 (Forall_forall _ _) Vr r Hr).
  - rewrite Hc. cbn [List.length]. 
    assert (L : forall pv l, List.length (flat_map (fun p : string * string => [fst p; snd p]) (edges pv l)) = (2 * List.length l)%nat).
    { intros pv l; revert pv; induction l; intros; simpl; [reflexivity|]. rewrite IHl. lia. }
    rewrite L. lia.
Qed.

Lemma csv_to_pwl_from_zero_witness :
  Lt.csv_to_pwl (samples [0; 1; 2; 3; 4] [0; 0; 1; 1; 0]) 3 =
    Ok (hold_line (Lt.lit 0 0) 0 ::
          flat_map (fun p => [fst p; snd p])
            (edges 0 [(Lt.lit 2000000 0, 3); (Lt.lit 4000000 0, 0)]),
        ("PWL(" ++ hold_line (Lt.lit 0 0) 0 ++ " " ++
         glue (edges 0 [(Lt.lit 2000000 0, 3); (Lt.lit 4000000 0, 0)]) ++ ")")%string) /\
  List.length (hold_line (Lt.lit 0 0) 0 ::
          flat_map (fun p => [fst p; snd p])
            (edges 0 [(Lt.lit 2000000 0, 3); (Lt.lit 4000000 0, 0)])) =
    (2 * List.length (Lt.changes (samples [0; 1; 2; 3; 4] [0; 0; 1; 1; 0])%Z 3%Z) - 1)%nat.
Proof.
  apply csv_to_pwl_from_zero.
  - vm_compute. reflexivity.
  - vm_compute. reflexivity.
  - repeat constructor.
  - eexists. vm_compute. reflexivity.
Defined.

(** X6: [csv_to_pwl] raises [TypeError] on a table without samples, and on
    every table whose first sample is not at time 0, whatever follows. *)
Theorem csv_to_pwl_type_errors max_val :
  Lt.csv_to_pwl [] max_val = Raise TypeError /\
  (forall t v df,
     PyFloat.eq (PyFloat.rint (PrimFloat.mul t (Lt.lit 1 6))) PyFloat.fzero = false ->
     Lt.csv_to_pwl ((t, v) :: df) max_val = Raise TypeError).
Proof.
  split; [reflexivity|]. intros t v df H. apply first_sample_not_at_zero. exact H.
Qed.

Lemma csv_to_pwl_type_errors_witness :
  Lt.csv_to_pwl [] 3 = Raise TypeError /\
  Lt.csv_to_pwl ((Lt.lit 1 0, Lt.lit 0 0) :: samples [2; 3] [1; 1]) 3 = Raise TypeError.
Proof.
  destruct (csv_to_pwl_type_errors 3) as [H1 H2]. split; [exact H1|].
  apply H2. vm_compute. reflexivity.
Defined.

(** ** Further properties of the unit scaler *)

Lemma split_all p sep s : all p s = true -> Forall (fun piece => all p piece = true) (split sep s).
Proof.
  induction s as [|c s IH]; simpl; intros H.
  - repeat constructor.
  - apply andb_true_iff in H. destruct H as [Hc Hs]. specialize (IH Hs).
    destruct (Ascii.eqb c sep).
    + constructor; [reflexivity | assumption].
    + destruct (split sep s) as [|q qs]; [repeat constructor; simpl; rewrite Hc; reflexivity|].
      inversion IH; subst. constructor; [simpl; rewrite Hc; assumption | assumption].
Qed.

Lemma search_digits_none s : all not_digit s = true -> search_digits s = None.
Proof.
  induction s as [|c s IH]; simpl; [reflexivity|]. intros H.
  apply andb_true_iff in H. destruct H as [Hc Hs]. unfold not_digit in Hc.
  apply negb_true_iff in Hc. rewrite Hc. auto.
Qed.

(** X8: [parse_param_string] raises [IndexError] on a string without an
    equals sign, and [AttributeError] when there is no digit after the
    first one. *)

Theorem parse_param_errors :
  (forall s, all not_equals_sign s = true -> Lt.parse_param_string s = Raise IndexError) /\
  (forall name rest,
     all not_equals_sign name = true -> all not_digit rest = true ->
     Lt.parse_param_string (name ++ "=" ++ rest) = Raise AttributeError).
Proof.
  split.
  - intros s H. unfold Lt.parse_param_string. rewrite (split_whole _ H). reflexivity.
  - intros name rest Hn Hr. unfold Lt.parse_param_string.
    change (name ++ "=" ++ rest)%string with (name ++ String "=" rest)%string.
    rewrite (split_at_equals _ _ Hn).
    pose proof (split_all _ "=" _ Hr) as F.
    destruct (split_cons "=" rest) as (p & ps & E). rewrite E in *.
    inversion F as [|? ? Hp _]; subst.
    cbn [getitem nth_error Py.bind]. rewrite (search_digits_none _ Hp). reflexivity.
Qed.

Lemma parse_param_errors_witness :
  Lt.parse_param_string "R1" = Raise IndexError /\
  Lt.parse_param_string ("R" ++ "=" ++ "k") = Raise AttributeError.
Proof.
  destruct parse_param_errors as [H1 H2]. split; [apply H1 | apply H2]; reflexivity.
Defined.

Lemma take_digits_tail digits tail :
  all is_digit digits = true -> no_leading_digit tail = true ->
  take_digits (digits ++ tail) = digits.
Proof.
  intros Hd Ht. induction digits as [|c digits IH]; simpl in *.
  - destruct tail as [|c l]; simpl in *; [reflexivity|].
    unfold not_digit in Ht. apply negb_true_iff in Ht. rewrite Ht. reflexivity.
  - apply andb_true_iff in Hd. destruct Hd as [Hc Hd]. rewrite Hc, (IH Hd). reflexivity.
Qed.

Lemma search_digits_tail digits tail :
  digits <> EmptyString ->
  all is_digit digits = true -> no_leading_digit tail = true ->
  search_digits (digits ++ tail) = Some digits.
Proof.
  intros Hne Hd Ht. destruct digits as [|c digits]; [congruence|].
  pose proof (take_digits_tail _ _ Hd Ht) as T.
  simpl in Hd. apply andb_true_iff in Hd. destruct Hd as [Hc Hd].
  cbn [append search_digits]. rewrite Hc. f_equal. exact T.
Qed.

(** The value that the chain of tests returns for the fragment
    [digits ++ tail]. *)
Lemma scale_chain val digits tail :
  digits <> EmptyString -> all is_digit digits = true ->
  (if 0 <? find (lower (digits ++ tail)) "meg" then Ok (PrimFloat.mul val (Lt.lit 1 6))
   else if 0 <? find (lower (digits ++ tail)) "k" then Ok (PrimFloat.mul val (Lt.lit 1 3))
   else if 0 <? find (lower (digits ++ tail)) "m" then Ok (PrimFloat.mul val (Lt.lit 1 (-3)))
   else if 0 <? find (lower (digits ++ tail)) "u" then Ok (PrimFloat.mul val (Lt.lit 1 (-6)))
   else if 0 <? find (lower (digits ++ tail)) "n" then Ok (PrimFloat.mul val (Lt.lit 1 (-9)))
   else if 0 <? find (lower (digits ++ tail)) "p" then Ok (PrimFloat.mul val (Lt.lit 1 (-12)))
   else Ok val) = Ok (scaled val tail).
Proof.
  intros Hne Hd. rewrite lower_app, (lower_digits _ Hd).
  rewrite !find_after_digits by (assumption || reflexivity).
  unfold scaled. rewrite multiplier_lower.
  repeat (match goal with |- context [if contains ?a ?b then _ else _] =>
            destruct (contains a b) end; try reflexivity).
Qed.

(** X9: only the first run of digits is the number: whatever follows it
    up to the next equals sign, a decimal point and a fraction included,
    is not read as part of the number and is only searched for the
    suffixes; [x=1.5k] gives 1000. *)

Theorem digits_then_anything name digits tail :
  all not_equals_sign name = true ->
  digits <> EmptyString -> all is_digit digits = true ->
  no_leading_digit tail = true -> all not_equals_sign tail = true ->
  Lt.parse_param_string (name ++ "=" ++ digits ++ tail) =
    Ok (scaled (PyFloat.of_decimal false (digits_value digits) 0) tail).
Proof.
  intros Hname Hne Hd Ht He.
  unfold Lt.parse_param_string.
  change (name ++ "=" ++ digits ++ tail)%string
    with (name ++ String "=" (digits ++ tail))%string.
  rewrite (split_at_equals _ _ Hname).
  rewrite split_whole.
  2:{ rewrite all_app. rewrite (all_impl _ _ _ digit_not_equals Hd), He. reflexivity. }
  cbn [getitem nth_error Py.bind].
  rewrite (search_digits_tail _ _ Hne Hd Ht). cbn [group Py.bind].
  rewrite (of_string_digits _ Hne Hd). cbn [Py.bind].
  apply scale_chain; assumption.
Qed.

Lemma digits_then_anything_witness :
  Lt.parse_param_string ("x" ++ "=" ++ "1" ++ ".5k") =
    Ok (scaled (PyFloat.of_decimal false (digits_value "1") 0) ".5k").
Proof.
  apply digits_then_anything; (reflexivity || discriminate).
Defined.

(** X10: what follows a second equals sign is not read. *)

Theorem text_after_second_equals_ignored name ss rest :
  all not_equals_sign name = true -> all not_equals_sign ss = true ->
  Lt.parse_param_string (name ++ "=" ++ ss ++ "=" ++ rest) =
  Lt.parse_param_string (name ++ "=" ++ ss).
Proof.
  intros Hn Hs. unfold Lt.parse_param_string.
  change (name ++ "=" ++ ss ++ "=" ++ rest)%string
    with (name ++ String "=" (ss ++ String "=" rest))%string.
  change (name ++ "=" ++ ss)%string with (name ++ String "=" ss)%string.
  rewrite !(split_at_equals _ _ Hn), (split_at_equals _ _ Hs), (split_whole _ Hs).
  reflexivity.
Qed.

Lemma text_after_second_equals_ignored_witness :
  Lt.parse_param_string ("a" ++ "=" ++ "5k" ++ "=" ++ "3meg") =
  Lt.parse_param_string ("a" ++ "=" ++ "5k").
Proof. apply text_after_second_equals_ignored; reflexivity. Defined.

Lemma find_head c sub rest :
  (0 <? find (String c rest) sub) =
  negb (String.prefix sub (String c rest)) && contains sub rest.
Proof.
  unfold find. cbn [find_from]. destruct (String.prefix sub (String c rest)); [reflexivity|].
  simpl negb. rewrite andb_true_l. apply find_from_positive. lia.
Qed.

Lemma contains_digits_only c sub digits :
  is_digit c = false -> all is_digit digits = true ->
  contains (String c sub) digits = false.
Proof.
  intros Hc Hd. rewrite <- (append_empty digits).
  rewrite (contains_after_digits _ _ _ _ Hc Hd). reflexivity.
Qed.

(** X12: a character before the digits that is first in the fragment is
    never taken for a suffix, because the tests ask for an index above 0:
    [R=k10] gives 10. *)

Theorem unit_before_number_ignored name c digits :
  all not_equals_sign name = true ->
  not_digit c = true -> not_equals_sign c = true ->
  digits <> EmptyString -> all is_digit digits = true ->
  Lt.parse_param_string (name ++ "=" ++ String c digits) =
    Ok (PyFloat.of_decimal false (digits_value digits) 0).
Proof.
  intros Hname Hc He Hne Hd.
  unfold Lt.parse_param_string.
  change (name ++ "=" ++ String c digits)%string with (name ++ String "=" (String c digits))%string.
  rewrite (split_at_equals _ _ Hname).
  rewrite split_whole.
  2:{ cbn [all]. rewrite He. rewrite (all_impl _ _ _ digit_not_equals Hd). reflexivity. }
  cbn [getitem nth_error Py.bind search_digits].
  unfold not_digit in Hc. apply negb_true_iff in Hc. rewrite Hc.
  pose proof (search_digits_tail digits EmptyString Hne Hd eq_refl) as S.
  rewrite append_empty in S. rewrite S. cbn [group Py.bind].
  rewrite (of_string_digits _ Hne Hd). cbn [Py.bind lower].
  rewrite (lower_digits _ Hd). rewrite !find_head.
  rewrite !contains_digits_only by (assumption || reflexivity).
  rewrite !andb_false_r. reflexivity.
Qed.

Lemma unit_before_number_ignored_witness :
  Lt.parse_param_string ("R" ++ "=" ++ String "k" "10") =
    Ok (PyFloat.of_decimal false (digits_value "10") 0).
Proof.
  apply unit_before_number_ignored; (reflexivity || discriminate).
Defined.

Lemma not_unit_letter_head c sub rest h :
  not_unit_letter c = true ->
  In h ["m"; "k"; "u"; "n"; "p"]%char ->
  String.prefix (String h sub) (String (lower_char c) rest) = false.
Proof.
  intros H Hin. apply prefix_head. intros E. subst h.
  unfold not_unit_letter in H. apply negb_true_iff in H.
  assert (T : existsb (Ascii.eqb (lower_char c)) ["m"; "k"; "u"; "n"; "p"]%char = true).
  { apply existsb_exists. exists (lower_char c). split; [assumption | apply Ascii.eqb_refl]. }
  congruence.
Qed.

(** X11: a character before the digits that begins no suffix, a minus
    sign for one, is dropped: the result is that of the fragment without
    it, so [amplitude=-1000u] gives 1000 micro, without the sign. *)

Theorem leading_character_dropped name c digits tail :
  all not_equals_sign name = true ->
  not_digit c = true -> not_equals_sign c = true -> not_unit_letter c = true ->
  digits <> EmptyString -> all is_digit digits = true ->
  no_leading_digit tail = true -> all not_equals_sign tail = true ->
  Lt.parse_param_string (name ++ "=" ++ String c (digits ++ tail)) =
    Ok (scaled (PyFloat.of_decimal false (digits_value digits) 0) tail).
Proof.
  intros Hname Hc He Hu Hne Hd Ht Het.
  unfold Lt.parse_param_string.
  change (name ++ "=" ++ String c (digits ++ tail))%string
    with (name ++ String "=" (String c (digits ++ tail)))%string.
  rewrite (split_at_equals _ _ Hname).
  rewrite split_whole.
  2:{ cbn [all]. rewrite He, all_app, (all_impl _ _ _ digit_not_equals Hd), Het. reflexivity. }
  cbn [getitem nth_error Py.bind search_digits].
  unfold not_digit in Hc. apply negb_true_iff in Hc. rewrite Hc.
  rewrite (search_digits_tail _ _ Hne Hd Ht). cbn [group Py.bind].
  rewrite (of_string_digits _ Hne Hd). cbn [Py.bind lower].
  rewrite !find_head.
  rewrite !(not_unit_letter_head c _ _ _ Hu) by (simpl; tauto).
  cbn [negb andb].
  rewrite lower_app, (lower_digits _ Hd).
  rewrite !contains_after_digits by (assumption || reflexivity).
  unfold scaled. rewrite multiplier_lower.
  repeat (match goal with |- context [if contains ?a ?b then _ else _] =>
            destruct (contains a b) end; try reflexivity).
Qed.

Lemma leading_character_dropped_witness :
  Lt.parse_param_string ("amplitude" ++ "=" ++ String "-" ("1000" ++ "u")) =
    Ok (scaled (PyFloat.of_decimal false (digits_value "1000") 0) "u").
Proof.
  apply leading_character_dropped; (reflexivity || discriminate).
Defined.

(** ** The script extractor *)

Lemma squeeze_single_spaced s : single_spaced s = true -> Lt.squeeze_spaces s = s.
Proof.
  induction s as [|c s IH]; [reflexivity|]. cbn [single_spaced Lt.squeeze_spaces].
  intros H. apply andb_true_iff in H. destruct H as [Hc Hs]. specialize (IH Hs).
  destruct (Ascii.eqb c " ") eqn:E.
  - destruct s as [|c' s]; [reflexivity|]. simpl in Hc. apply negb_true_iff in Hc.
    rewrite Hc. rewrite IH. reflexivity.
  - rewrite IH. reflexivity.
Qed.

Lemma squeeze_app r c s :
  single_spaced r = true -> Ascii.eqb c " " = false ->
  Lt.squeeze_spaces (r ++ String c s) = (r ++ String c (Lt.squeeze_spaces s))%string.
Proof.
  intros Hr Hc. induction r as [|a r IH].
  - cbn [append Lt.squeeze_spaces]. rewrite Hc. reflexivity.
  - cbn [single_spaced] in Hr. apply andb_true_iff in Hr. destruct Hr as [Ha Hr].
    specialize (IH Hr). cbn [append Lt.squeeze_spaces].
    destruct (Ascii.eqb a " ") eqn:E.
    + destruct r as [|b r].
      * cbn [append]. rewrite Hc. cbn [append] in IH. rewrite IH. reflexivity.
      * cbn [append]. simpl in Ha. apply negb_true_iff in Ha. rewrite Ha.
        cbn [append] in IH. rewrite IH. reflexivity.
    + rewrite IH. reflexivity.
Qed.

Lemma squeeze_join rows :
  forallb single_spaced rows = true ->
  Lt.squeeze_spaces (join_rows rows) = join_rows rows.
Proof.
  induction rows as [|r rows IH]; [reflexivity|]. cbn [forallb join_rows].
  intros H. apply andb_true_iff in H. destruct H as [Hr Hs]. specialize (IH Hs).
  destruct rows as [|r' rows]; [apply squeeze_single_spaced; assumption|].
  rewrite squeeze_app by (assumption || reflexivity).
  change (Lt.squeeze_spaces (String "n" (join_rows (r' :: rows))))
    with (String "n" (Lt.squeeze_spaces (join_rows (r' :: rows)))).
  rewrite IH. reflexivity.
Qed.

Lemma replace_char_absent a b s :
  all (fun c => negb (Ascii.eqb c a)) s = true -> Lt.replace_char a b s = s.
Proof.
  induction s as [|c s IH]; simpl; [reflexivity|]. intros H.
  apply andb_true_iff in H. destruct H as [Hc Hs]. apply negb_true_iff in Hc.
  rewrite Hc, IH by assumption. reflexivity.
Qed.

Lemma all_join (p : ascii -> bool) rows :
  p Lt.backslash = true -> p "n"%char = true ->
  forallb (all p) rows = true -> all p (join_rows rows) = true.
Proof.
  intros Hb Hn. induction rows as [|r rows IH]; [reflexivity|]. cbn [forallb join_rows].
  intros H. apply andb_true_iff in H. destruct H as [Hr Hs]. specialize (IH Hs).
  destruct rows as [|r' rows]; [assumption|].
  rewrite all_app. cbn [all]. rewrite Hr, Hb, Hn, IH. reflexivity.
Qed.

Lemma split_no_backslash r :
  all (fun c => negb (Ascii.eqb c Lt.backslash)) r = true -> Lt.split_backslash_n r = [r].
Proof.
  induction r as [|c r IH]; [reflexivity|]. cbn [all Lt.split_backslash_n].
  intros H. apply andb_true_iff in H. destruct H as [Hc Hr]. apply negb_true_iff in Hc.
  rewrite Hc, (IH Hr). reflexivity.
Qed.

Lemma split_at_backslash_n r rest :
  all (fun c => negb (Ascii.eqb c Lt.backslash)) r = true ->
  Lt.split_backslash_n (r ++ String Lt.backslash (String "n" rest)) =
  r :: Lt.split_backslash_n rest.
Proof.
  induction r as [|c r IH]; [reflexivity|]. cbn [all append].
  intros H. apply andb_true_iff in H. destruct H as [Hc Hr]. apply negb_true_iff in Hc.
  cbn [Lt.split_backslash_n]. rewrite Hc, (IH Hr). reflexivity.
Qed.

Lemma split_join rows :
  rows <> [] ->
  forallb (all (fun c => negb (Ascii.eqb c Lt.backslash))) rows = true ->
  Lt.split_backslash_n (join_rows rows) = rows.
Proof.
  induction rows as [|r rows IH]; [congruence|]. intros _. cbn [forallb join_rows].
  intros H. apply andb_true_iff in H. destruct H as [Hr Hs].
  destruct rows as [|r' rows]; [apply split_no_backslash; assumption|].
  rewrite (split_at_backslash_n _ _ Hr). rewrite IH; [reflexivity | discriminate | assumption].
Qed.

Lemma forallb_impl {A : Type} (p q : A -> bool) l :
  (forall a, p a = true -> q a = true) -> forallb p l = true -> forallb q l = true.
Proof.
  intros I. induction l; simpl; [reflexivity|]. intros H. apply andb_true_iff in H.
  destruct H. rewrite I, IHl by assumption. reflexivity.
Qed.

Lemma plain_char_parts c :
  plain_char c = true ->
  negb (Ascii.eqb c Lt.backslash) = true /\
  negb (Ascii.eqb c Lt.tab) = true /\
  negb (Ascii.eqb c Lt.newline) = true.
Proof.
  unfold plain_char. intros H. apply andb_true_iff in H. destruct H as [H H3].
  apply andb_true_iff in H. tauto.
Qed.

(** X15: [convert_script_to_list] gives back the rows of a script that is
    written on one line with a backslash and the letter n between the
    rows, when the rows have no backslash, tab or newline and no two
    spaces in a row. *)

Theorem convert_script_round_trip rows :
  rows <> [] -> forallb plain_row rows = true ->
  Lt.convert_script_to_list (join_rows rows) = rows.
Proof.
  intros Hne H. unfold Lt.convert_script_to_list.
  assert (P : forall q : ascii -> bool,
            (forall c, plain_char c = true -> q c = true) ->
            forallb (all q) rows = true).
  { intros q Hq. apply (forallb_impl plain_row); [|assumption].
    intros r Hr. unfold plain_row in Hr. apply andb_true_iff in Hr.
    apply (all_impl plain_char); tauto. }
  rewrite squeeze_join.
  2:{ apply (forallb_impl plain_row); [|assumption]. intros r Hr.
      unfold plain_row in Hr. apply andb_true_iff in Hr. tauto. }
  rewrite (replace_char_absent Lt.tab).
  2:{ apply all_join; [reflexivity | reflexivity |]. apply P. intros c Hc.
      apply plain_char_parts in Hc. cbv beta. tauto. }
  rewrite (replace_char_absent Lt.newline).
  2:{ apply all_join; [reflexivity | reflexivity |]. apply P. intros c Hc.
      apply plain_char_parts in Hc. cbv beta. tauto. }
  apply split_join; [assumption|]. apply P. intros c Hc.
  apply plain_char_parts in Hc. cbv beta. tauto.
Qed.

Lemma convert_script_round_trip_witness :
  Lt.convert_script_to_list
    (join_rows ["header"; " label dt dac amp rb1 rb2"; " start, 0, 0, 0, 0, 0"]%string)
  = ["header"; " label dt dac amp rb1 rb2"; " start, 0, 0, 0, 0, 0"]%string.
Proof.
  apply convert_script_round_trip; [discriminate | reflexivity].
Defined.

Lemma scan_unmarked lines : forall my_list,
  forallb (fun line => negb (marked line)) lines = true ->
  Lt.scan_net_list lines my_list = Ok my_list.
Proof.
  induction lines as [|line lines IH]; intros my_list H; [reflexivity|].
  cbn [forallb] in H. apply andb_true_iff in H. destruct H as [Hl Hs].
  cbn [Lt.scan_net_list]. unfold marked in Hl. apply negb_true_iff in Hl.
  rewrite Hl. apply IH. assumption.
Qed.

Lemma scan_app pre lines : forall my_list,
  Lt.scan_net_list (pre ++ lines) my_list =
  (st <- Lt.scan_net_list pre my_list ;; Lt.scan_net_list lines st).
Proof.
  induction pre as [|line pre IH]; intros my_list; [reflexivity|].
  cbn [app Lt.scan_net_list].
  destruct (negb (find line "Python Script" =? -1)); [|apply IH].
  destruct (Lt.pop0 _) as [l|e]; [|reflexivity]. cbn [Py.bind].
  destruct (Lt.pop0 l) as [l'|e]; [|reflexivity]. cbn [Py.bind]. apply IH.
Qed.

(** X16: on a net list without a line that has the marker
    [Python Script], [get_script_from_net_list] ends with
    [UnboundLocalError]: [my_list] is returned without having been
    assigned. *)

Theorem get_script_without_marker net_list :
  forallb (fun line => negb (marked line)) net_list = true ->
  Lt.get_script_from_net_list net_list = Lt.UnboundLocalError.
Proof.
  intros H. unfold Lt.get_script_from_net_list. rewrite (scan_unmarked _ _ H). reflexivity.
Qed.

Lemma get_script_without_marker_witness :
  Lt.get_script_from_net_list ["V1 N001 0 PWL file=dac_en.txt"; ".tran 10m"]%string
  = Lt.UnboundLocalError.
Proof. apply get_script_without_marker. vm_compute. reflexivity. Defined.

(** X17: the last line with the marker decides: when no earlier line has
    raised, [get_script_from_net_list] returns the pieces of that line
    without the first two, the header and the labels, and raises
    [IndexError] when the line has fewer than two pieces. *)

Theorem get_script_last_marker pre line post st :
  Lt.scan_net_list pre None = Ok st ->
  marked line = true ->
  forallb (fun l => negb (marked l)) post = true ->
  Lt.get_script_from_net_list (pre ++ line :: post) =
  match Lt.convert_script_to_list line with
  | _ :: _ :: rows => Lt.Returned rows
  | _ => Lt.Raised IndexError
  end.
Proof.
  intros Hpre Hm Hpost. unfold Lt.get_script_from_net_list.
  rewrite scan_app, Hpre. cbn [Py.bind Lt.scan_net_list].
  unfold marked in Hm. rewrite Hm.
  fold (Lt.convert_script_to_list line).
  destruct (Lt.convert_script_to_list line) as [|h [|l rows]]; try reflexivity.
  cbn [Lt.pop0 Py.bind]. rewrite (scan_unmarked _ _ Hpost). reflexivity.
Qed.

Lemma get_script_last_marker_witness :
  Lt.get_script_from_net_list
    (["V1 1 0"%string; "TEXT !Python Script old\n labels\n a,1,0,0,0,0"%string] ++
     "TEXT !Python Script new\n labels\n start,0,0,0,0,0\n pw,240,1,1,0,0"%string ::
     [".end"%string])%list =
  match Lt.convert_script_to_list
          "TEXT !Python Script new\n labels\n start,0,0,0,0,0\n pw,240,1,1,0,0" with
  | _ :: _ :: rows => Lt.Returned rows
  | _ => Lt.Raised IndexError
  end.
Proof.
  apply (get_script_last_marker _ _ _ (Some [" a,1,0,0,0,0"%string])); vm_compute; reflexivity.
Defined.

(** ** The pulse file builder *)

Lemma DataFrame_of_five_by_six {A : Type} (r1 r2 r3 r4 r5 : list A) :
  List.length r1 = 6%nat -> List.length r2 = 6%nat -> List.length r3 = 6%nat ->
  List.length r4 = 6%nat -> List.length r5 = 6%nat ->
  Lt.DataFrame_of [r1; r2; r3; r4; r5] (List.length Lt.ac_columns) = Raise ValueError.
Proof.
  intros H1 H2 H3 H4 H5. unfold Lt.DataFrame_of. cbn [fold_right].
  rewrite H1, H2, H3, H4, H5. reflexivity.
Qed.

(** X18: [make_ac_pwl_file_for_spice] never returns: whatever the int
    arguments, it raises before a file is written, at the latest when the
    table [dfs] is built from rows of six fields under ten column names. *)
Theorem make_ac_pwl_file_never_returns
    (amplitude_ua pulsewidth_us ipi rpr requested_frequency cycles : Z) :
  exists e,
    Lt.make_ac_pwl_file_for_spice_dfs
      amplitude_ua pulsewidth_us ipi rpr requested_frequency cycles = Raise e.
Proof.
  unfold Lt.make_ac_pwl_file_for_spice_dfs.
  repeat (match goal with
          | |- exists e, Py.bind ?m _ = _ =>
              destruct m; cbn [Py.bind]; [|eexists; reflexivity]
          end).
  rewrite DataFrame_of_five_by_six by reflexivity. eexists; reflexivity.
Qed.

Lemma split_no_sep sep s :
  all (fun c => negb (Ascii.eqb c sep)) s = true -> split sep s = [s].
Proof.
  induction s as [|c s IH]; simpl; [reflexivity|]. intros H.
  apply andb_true_iff in H. destruct H as [Hc Hs]. apply negb_true_iff in Hc.
  rewrite Hc, (IH Hs). reflexivity.
Qed.

Lemma expand_row_no_comma row :
  no_comma row = true -> Lt.expand_row row = Raise IndexError.
Proof.
  intros H. unfold Lt.expand_row. rewrite (split_no_sep _ _ H). reflexivity.
Qed.

Lemma of_string_error s : is_ok (PyFloat.of_string s) = false -> PyFloat.of_string s = Raise ValueError.
Proof.
  unfold PyFloat.of_string.
  destruct (PyFloat.remove_underscores None (PyFloat.strip s)) as [t|]; [|reflexivity].
  destruct (PyFloat.take_sign t) as [neg body].
  destruct (PyFloat.parse_decimal neg body); [discriminate|].
  destruct (PyFloat.parse_inf_or_nan neg body); [discriminate | reflexivity].
Qed.

Lemma quantize_str_error s :
  is_ok (PyFloat.of_string s) = false -> Lt.quantize (Lt.CStr s) = Raise ValueError.
Proof.
  intros H. unfold Lt.quantize, Lt.float_of_cell. rewrite (of_string_error _ H). reflexivity.
Qed.

Lemma mapM_quantize_error l :
  forallb (fun s => is_ok (PyFloat.of_string s)) l = false ->
  mapM Lt.quantize (map Lt.CStr l) = Raise ValueError.
Proof.
  induction l as [|s l IH]; simpl; [discriminate|]. intros H.
  destruct (is_ok (PyFloat.of_string s)) eqn:E.
  - simpl in H. destruct (quantize_str_ok _ E) as [x Hx]. rewrite Hx. cbn [Py.bind].
    rewrite (IH H). reflexivity.
  - rewrite (quantize_str_error _ E). reflexivity.
Qed.

Lemma expand_row_bad_number row :
  bad_number row = true -> Lt.expand_row row = Raise ValueError.
Proof.
  unfold bad_number, Lt.expand_row.
  destruct (split "," row) as [|label [|d levels]]; try discriminate.
  intros H. apply negb_true_iff in H. cbn [map setitem Py.bind].
  cbn [mapM]. rewrite quantize_int_0, quantize_rise_time. cbn [Py.bind].
  destruct (forallb (fun s => is_ok (PyFloat.of_string s)) levels) eqn:L.
  - destruct (mapM_quantize_ok _ L) as [r Hr]. rewrite Hr. cbn [Py.bind].
    cbn [forallb] in H. rewrite L, andb_true_r in H.
    rewrite (quantize_str_error _ H). reflexivity.
  - rewrite (mapM_quantize_error _ L). reflexivity.
Qed.

Lemma mapM_first_error {A B : Type} (f : A -> result B) pre x post rows e :
  mapM f pre = Ok rows -> f x = Raise e -> mapM f (pre ++ x :: post) = Raise e.
Proof.
  revert rows; induction pre as [|a pre IH]; intros rows Hpre Hx; simpl.
  - rewrite Hx. reflexivity.
  - simpl in Hpre. inv_bind Hpre. inv_bind Hpre. rewrite Ha. cbn [Py.bind].
    rewrite (IH _ Ha0 Hx). reflexivity.
Qed.

(** X19: the first row of a script that cannot be expanded decides the
    error of [build_frame_from_script]: after rows with a label and float
    literals, a row without a comma raises [IndexError] and a row whose
    duration or level is not a float literal raises [ValueError], whatever
    follows it. *)
Theorem first_bad_row_decides pre row post :
  forallb well_formed pre = true ->
  (no_comma row = true ->
     Lt.build_frame_from_script (pre ++ row :: post) = Raise IndexError) /\
  (bad_number row = true ->
     Lt.build_frame_from_script (pre ++ row :: post) = Raise ValueError).
Proof.
  intros Hpre. destruct (mapM_expand_row_ok _ Hpre) as [rows Hrows].
  split; intros H; unfold Lt.build_frame_from_script; rewrite ladder_rows.
  - rewrite (mapM_first_error _ _ _ _ _ _ Hrows (expand_row_no_comma _ H)). reflexivity.
  - rewrite (mapM_first_error _ _ _ _ _ _ Hrows (expand_row_bad_number _ H)). reflexivity.
Qed.

Lemma first_bad_row_decides_witness :
  Lt.build_frame_from_script
    (["start,0,0,0,0,0"%string; "pw,240,1,1,0,0"%string] ++ "dt0"%string :: ["x,y"%string])%list
    = Raise IndexError /\
  Lt.build_frame_from_script
    (["start,0,0,0,0,0"%string; "pw,240,1,1,0,0"%string] ++ "dt0,60,0,high,0,0"%string :: [])%list
    = Raise ValueError /\
  Lt.build_frame_from_script
    (["start,0,0,0,0,0"%string; "pw,240,1,1,0,0"%string] ++
     ("dt0,60" ++ String file_separator ",0,0,0,0")%string :: [])%list
    = Raise ValueError.
Proof.
  split; [|split].
  - apply (first_bad_row_decides ["start,0,0,0,0,0"; "pw,240,1,1,0,0"]%string); reflexivity.
  - apply (first_bad_row_decides ["start,0,0,0,0,0"; "pw,240,1,1,0,0"]%string); reflexivity.
  - apply (first_bad_row_decides ["start,0,0,0,0,0"; "pw,240,1,1,0,0"]%string); reflexivity.
Defined.

Lemma lstrip_blanks ws s : all is_space ws = true -> PyFloat.lstrip (ws ++ s) = PyFloat.lstrip s.
Proof.
  induction ws as [|c ws IH]; simpl; [reflexivity|]. intros H.
  apply andb_true_iff in H. destruct H as [Hc Hs]. rewrite Hc. auto.
Qed.

Lemma lstrip_all_blanks ws : all is_space ws = true -> PyFloat.lstrip ws = EmptyString.
Proof.
  induction ws as [|c ws IH]; simpl; [reflexivity|]. intros H.
  apply andb_true_iff in H. destruct H as [Hc Hs]. rewrite Hc. auto.
Qed.

Lemma rstrip_all_blanks ws : all is_space ws = true -> PyFloat.rstrip ws = EmptyString.
Proof.
  induction ws as [|c ws IH]; simpl; [reflexivity|]. intros H.
  apply andb_true_iff in H. destruct H as [Hc Hs]. rewrite (IH Hs), Hc. reflexivity.
Qed.

Lemma rstrip_blanks s ws : all is_space ws = true -> PyFloat.rstrip (s ++ ws) = PyFloat.rstrip s.
Proof.
  intros H. induction s as [|c s IH]; simpl.
  - apply rstrip_all_blanks. assumption.
  - rewrite IH. reflexivity.
Qed.

Lemma lstrip_app s ws :
  all is_space ws = true ->
  PyFloat.rstrip (PyFloat.lstrip (s ++ ws)) = PyFloat.rstrip (PyFloat.lstrip s).
Proof.
  intros H. induction s as [|c s IH]; simpl.
  - rewrite (lstrip_all_blanks _ H). reflexivity.
  - destruct (is_space c); [exact IH|].
    change (String c (s ++ ws)) with (String c s ++ ws)%string.
    apply rstrip_blanks. assumption.
Qed.

Lemma strip_padded a b : padded a b -> PyFloat.strip b = PyFloat.strip a.
Proof.
  intros (ws1 & ws2 & H1 & H2 & ->). unfold PyFloat.strip.
  rewrite (lstrip_blanks _ _ H1). apply lstrip_app. assumption.
Qed.

Lemma quantize_padded a b : padded a b -> Lt.quantize (Lt.CStr b) = Lt.quantize (Lt.CStr a).
Proof.
  intros H. unfold Lt.quantize, Lt.float_of_cell, PyFloat.of_string.
  rewrite (strip_padded _ _ H). reflexivity.
Qed.

Lemma mapM_quantize_padded l1 l2 :
  Forall2 padded l1 l2 ->
  mapM Lt.quantize (map Lt.CStr l2) = mapM Lt.quantize (map Lt.CStr l1).
Proof.
  induction 1 as [|a b l1 l2 Hab _ IH]; [reflexivity|].
  cbn [map mapM]. rewrite (quantize_padded _ _ Hab), IH. reflexivity.
Qed.

Lemma expand_row_padded row1 row2 :
  same_numbers row1 row2 -> Lt.expand_row row2 = Lt.expand_row row1.
Proof.
  unfold same_numbers, Lt.expand_row. intros H.
  destruct (split_cons "," row1) as (p1 & ps1 & E1).
  destruct (split_cons "," row2) as (p2 & ps2 & E2).
  rewrite E1, E2 in *. cbn [tl] in H. cbn [map setitem Py.bind].
  inversion H as [|d1 d2 l1 l2 Hd Hl]; subst; [reflexivity|].
  cbn [map setitem Py.bind mapM].
  rewrite (mapM_quantize_padded _ _ Hl), (quantize_padded _ _ Hd). reflexivity.
Qed.

(** X20: blanks around the fields of a script are ignored, as are the
    labels: two scripts whose rows have the same fields after the label, up
    to blanks before and after each field, give the same result of
    [build_frame_from_script], frame, timing or error. *)
Theorem blanks_around_fields_ignored script1 script2 :
  Forall2 same_numbers script1 script2 ->
  Lt.build_frame_from_script script2 = Lt.build_frame_from_script script1.
Proof.
  intros H. unfold Lt.build_frame_from_script. rewrite !ladder_rows.
  assert (E : mapM Lt.expand_row script2 = mapM Lt.expand_row script1).
  { induction H as [|r1 r2 s1 s2 Hr _ IH]; simpl; [reflexivity|].
    rewrite (expand_row_padded _ _ Hr), IH. reflexivity. }
  rewrite E. reflexivity.
Qed.

Lemma padded_by (ws1 ws2 a : string) :
  all is_space ws1 = true -> all is_space ws2 = true -> padded a (ws1 ++ a ++ ws2).
Proof. intros H1 H2. exists ws1, ws2. auto. Qed.

Lemma blanks_around_fields_ignored_witness :
  Lt.build_frame_from_script
    [" start,  0,   0, 0, 0, 0"%string;
     (" pw," ++ String no_break_space " 240" ++ ", 1, 1, 0, 0")%string;
     " dt0, 60, 0, 0, 0, 0"%string;
     " rpw, 480, 1, 0, 0, 0"%string; " dt1, 500, 0, 0, 1, 1"%string;
     " gap, 10, 0, 0, 0, 0 "%string]
  = Lt.build_frame_from_script script_example.
Proof.
  apply blanks_around_fields_ignored.
  repeat (apply Forall2_cons || apply Forall2_nil);
    unfold same_numbers, no_break_space; cbn [append split tl Ascii.eqb Bool.eqb];
    repeat (apply Forall2_cons || apply Forall2_nil);
    first [ apply (padded_by " " "") | apply (padded_by "  " "")
          | apply (padded_by "   " "") | apply (padded_by " " " ")
          | apply (padded_by (String "160"%char " ") "") ]; reflexivity.
Defined.

Lemma frequency_of_errors period :
  (exists f, Lt.frequency_of period = Ok f) \/
  Lt.frequency_of period = Raise OverflowError \/
  Lt.frequency_of period = Raise ValueError.
Proof.
  unfold Lt.frequency_of, PyFloat.truediv.
  destruct (PyFloat.eq period PyFloat.fzero); [left; eauto|].
  cbn [Py.bind]. unfold PyFloat.to_int.
  destruct (FloatOps.Prim2SF (PrimFloat.div (Lt.lit 1 6) period)) as [s|s| |s m e].
  - left; eauto.
  - right; left; reflexivity.
  - right; right; reflexivity.
  - destruct (PyFloat.fraction m e). left; eauto.
Qed.

(** X21: on a script of six rows or more whose rows have a label and five
    float literals, [PSE.__init__] builds the frame and writes the four
    files; it can then fail in [int] on the frequency only, with
    [OverflowError] or [ValueError]: the test of the period against 0 rules
    out [ZeroDivisionError]. *)
Theorem PSE_four_channel_outcome script :
  Forall (fun row => List.length (split "," row) = 6%nat) script ->
  (6 <= List.length script)%nat -> forallb well_formed script = true ->
  exists frame t files,
    Lt.build_frame_from_script script = Ok (frame, t) /\
    Lt.make_pwl_files_from_frame frame = Ok files /\
    ((exists p, Lt.PSE_init script = Ok p /\ Lt.frame p = frame /\ Lt.files p = files) \/
     Lt.PSE_init script = Raise OverflowError \/
     Lt.PSE_init script = Raise ValueError).
Proof.
  intros F Hlen Hwf.
  destruct (build_frame_ok _ Hlen Hwf) as (frame & t & H).
  destruct (frame_widths _ _ _ 6%nat ltac:(lia) F H) as [Hne W].
  assert (exists files, Lt.make_pwl_files_from_frame frame = Ok files) as [files Hf].
  { unfold Lt.make_pwl_files_from_frame, Lt.DataFrame.
    rewrite (width_uniform _ _ Hne W). destruct frame; [congruence|].
    cbn [List.length Lt.columns Nat.eqb Py.bind]. eauto. }
  exists frame, t, files. split; [exact H|]. split; [exact Hf|].
  unfold Lt.PSE_init. rewrite H. cbn [Py.bind]. rewrite Hf. cbn [Py.bind].
  destruct (frequency_of_errors
              (PrimFloat.add (PrimFloat.add (PrimFloat.add (Lt.pw t) (Lt.dt0 t)) (Lt.rpw t))
                             (Lt.dt1 t))) as [[f E]|[E|E]]; rewrite E; cbn [Py.bind].
  - left. eexists. split; [reflexivity|]. split; reflexivity.
  - right; left; reflexivity.
  - right; right; reflexivity.
Qed.

Lemma PSE_four_channel_outcome_witness :
  exists frame t files,
    Lt.build_frame_from_script script_example = Ok (frame, t) /\
    Lt.make_pwl_files_from_frame frame = Ok files /\
    ((exists p, Lt.PSE_init script_example = Ok p /\ Lt.frame p = frame /\ Lt.files p = files) \/
     Lt.PSE_init script_example = Raise OverflowError \/
     Lt.PSE_init script_example = Raise ValueError).
Proof.
  apply PSE_four_channel_outcome.
  - repeat constructor.
  - simpl. lia.
  - vm_compute. reflexivity.
Defined.
